(** * Page controller of the fitness-coach front end (static/js/app.js)

    A shallow embedding of the controller and the properties its
    specification states about it.

    - JavaScript values are the ones the controller handles: [undefined],
      [null], booleans, numbers, strings and plain objects.
    - A Number is [NaN] or an exact integer: the controller only ever
      parses, adds, multiplies and compares integers.  The embedding is the
      safe-integer fragment of IEEE doubles (magnitudes below 2^53), where
      these operations are exact; [-0] and [0] are identified, which no
      operation used here can tell apart.
    - A string is a sequence of code units below 256, one [ascii] each.
    - Elements the controller addresses through a fixed selector
      ([#onboarding], [#chat], [#messages], [#sendBtn], [#chatInput],
      [#injuries_details], [#startBtn]) are fields of the page; elements it
      addresses through a computed id live in a finite map, and a missing
      one is [None], as [getElementById] answers [null].
    - An [async] function is cut at its [await]: the part up to the request
      and the part run when the request settles. *)

From Stdlib Require Import ZArith Lia Ascii String DecimalString DecimalZ DecimalPos.
From stdpp Require Import gmap strings list fin_maps.

Open Scope string_scope.
Open Scope Z_scope.

(** ** JavaScript values *)

Module JS.

Inductive number :=
| NaN
| Int (z : Z).

Inductive jsval :=
| JUndef
| JNull
| JBool (b : bool)
| JNum (n : number)
| JStr (s : string)
| JObj.

(** A property that holds a string when set and [undefined] otherwise
    ([dataset.x], or [min] on an element that is not an input). *)
Definition of_prop (o : option string) : jsval :=
  match o with
  | Some s => JStr s
  | None => JUndef
  end.

(** ToBoolean *)
Definition truthy (v : jsval) : bool :=
  match v with
  | JUndef | JNull => false
  | JBool b => b
  | JNum NaN => false
  | JNum (Int z) => negb (Z.eqb z 0)
  | JStr s => negb (String.eqb s "")
  | JObj => true
  end.

(** [a || b] *)
Definition jor (a b : jsval) : jsval := if truthy a then a else b.

(** Number::toString, radix 10, on the integers below 10^21. *)
Definition Number_toString (n : number) : string :=
  match n with
  | NaN => "NaN"
  | Int z => NilZero.string_of_int (Z.to_int z)
  end.

(** ToString, which [String(v)], template literals and [parseInt] apply. *)
Definition ToString (v : jsval) : string :=
  match v with
  | JUndef => "undefined"
  | JNull => "null"
  | JBool true => "true"
  | JBool false => "false"
  | JNum n => Number_toString n
  | JStr s => s
  | JObj => "[object Object]"
  end.

(** White space and line terminators among the code units below 256:
    TAB, LF, VT, FF, CR, SP and NBSP. *)
Definition is_ws (c : ascii) : bool :=
  let n := N_of_ascii c in
  ((9 <=? n) && (n <=? 13) || (n =? 32) || (n =? 160))%N.

Definition digit_val (c : ascii) : option Z :=
  let n := Z.of_N (N_of_ascii c) in
  if (48 <=? n) && (n <=? 57) then Some (n - 48) else None.

Fixpoint skip_ws (s : string) : string :=
  match s with
  | String c r => if is_ws c then skip_ws r else s
  | EmptyString => EmptyString
  end.

(** Value of the longest prefix of decimal digits, read left to right. *)
Fixpoint parse_digits (acc : Z) (s : string) : Z :=
  match s with
  | String c r =>
      match digit_val c with
      | Some d => parse_digits (10 * acc + d) r
      | None => acc
      end
  | EmptyString => acc
  end.

Definition starts_with_digit (s : string) : bool :=
  match s with
  | String c _ => match digit_val c with Some _ => true | None => false end
  | EmptyString => false
  end.

(** [parseInt(s, 10)] on a string: leading white space, an optional sign,
    then the longest run of digits; [NaN] when that run is empty. *)
Definition parseInt_string (s : string) : number :=
  let s1 := skip_ws s in
  let '(neg, s2) :=
    match s1 with
    | String c r =>
        if Ascii.eqb c "-" then (true, r)
        else if Ascii.eqb c "+" then (false, r)
        else (false, s1)
    | EmptyString => (false, s1)
    end in
  if starts_with_digit s2
  then Int (if neg then - parse_digits 0 s2 else parse_digits 0 s2)
  else NaN.

(** [parseInt(v, 10)]: the argument goes through ToString first. *)
Definition parseInt (v : jsval) : number := parseInt_string (ToString v).

(** String.prototype.trim *)
Fixpoint rtrim (s : string) : string :=
  match s with
  | String c r =>
      match rtrim r with
      | EmptyString => if is_ws c then EmptyString else String c EmptyString
      | r' => String c r'
      end
  | EmptyString => EmptyString
  end.

Definition trim (s : string) : string := rtrim (skip_ws s).

(** Arithmetic and comparison; every comparison with [NaN] is false. *)
Definition add (a b : number) : number :=
  match a, b with
  | Int x, Int y => Int (x + y)
  | _, _ => NaN
  end.

Definition mul (a b : number) : number :=
  match a, b with
  | Int x, Int y => Int (x * y)
  | _, _ => NaN
  end.

Definition lt (a b : number) : bool :=
  match a, b with
  | Int x, Int y => x <? y
  | _, _ => false
  end.


(** [o == s] for a string [s] and [o] a string or [undefined]. *)
Definition loose_eq_string (o : option string) (s : string) : bool :=
  match o with
  | Some t => String.eqb t s
  | None => false
  end.

End JS.

Import JS.

(** ** The page *)

Inductive result (A : Type) :=
| Ok (a : A)
| Throw.                          (* an uncaught TypeError *)
Arguments Ok {A} a.
Arguments Throw {A}.

(** [classList]: a set of class names. *)
Abbreviation classList := (gset string).

Definition classList_add (c : string) (cl : classList) : classList := cl ∪ {[c]}.
Definition classList_remove (c : string) (cl : classList) : classList := cl ∖ {[c]}.
Definition classList_contains (c : string) (cl : classList) : bool :=
  bool_decide (c ∈ cl).

(** Nodes the controller creates: an element with its class attribute and
    children, or a text node, whose data is never parsed. *)
#[warnings="-register-all"]
Inductive node :=
| Text (data : string)
| Element (tag className : string) (childNodes : list node).

(** The [textContent] setter takes a nullable DOMString: [null] and
    [undefined] are the empty string, anything else its ToString. *)
Definition DOMString_of (v : jsval) : string :=
  match v with
  | JUndef | JNull => ""
  | _ => ToString v
  end.

(** [e.textContent = v] replaces the children by one text node, or by
    none when the string is empty. *)
Definition textContent_children (v : jsval) : list node :=
  let s := DOMString_of v in
  if String.eqb s "" then [] else [Text s].

(** [.chip] element of a chip group. *)
Record chip := mkChip {
  chip_value : option string;         (* dataset.value *)
  chip_classList : classList;
  chip_listeners : nat                (* click listeners attached *)
}.

(** An element found by id: a numeric input (its [min], [max], [step] and
    [value] properties) or a chip container (the [.chip] elements below
    it).  A property an element does not have is [None]; a property that
    is written keeps the string written. *)
Record element := mkElement {
  el_min : option string;
  el_max : option string;
  el_step : option string;
  el_value : option string;
  el_chips : list chip                (* querySelectorAll('.chip') *)
}.

(** [.stepper .icon-btn] *)
Record button := mkButton {
  btn_stepTarget : option string;     (* dataset.stepTarget *)
  btn_step : option string;           (* dataset.step *)
  btn_listeners : nat
}.

(** [#messages].  [layout] is the rendered height of a list of children;
    [scrollHeight] is never below [clientHeight], and the [scrollTop]
    setter clamps to the largest offset [scrollHeight - clientHeight]. *)
Record scroller := mkScroller {
  sc_childNodes : list node;
  sc_scrollTop : N;
  sc_clientHeight : N;
  sc_layout : list node -> N
}.

Definition scrollHeight (m : scroller) : N :=
  N.max (sc_clientHeight m) (sc_layout m (sc_childNodes m)).

Definition scrollTopMax (m : scroller) : N :=
  (scrollHeight m - sc_clientHeight m)%N.

Definition appendChild (n : node) (m : scroller) : scroller :=
  mkScroller (sc_childNodes m ++ [n]) (sc_scrollTop m) (sc_clientHeight m)
             (sc_layout m).

Definition set_scrollTop (v : N) (m : scroller) : scroller :=
  mkScroller (sc_childNodes m) (N.min v (scrollTopMax m)) (sc_clientHeight m)
             (sc_layout m).

(** Body of a request to [/api/onboarding]. *)
Record payload := mkPayload {
  weight_kg : number;
  height_cm : number;
  age : number;
  gender : jsval;
  main_goal : jsval;
  experience : jsval;
  days_per_week : number;
  minutes_per_workout : number;
  injuries_yes_no : bool;
  injuries_details : string
}.

(** A parsed JSON response body; a property it lacks reads [undefined]. *)
Abbreviation response := (gmap string jsval).

Definition get (r : response) (k : string) : jsval := default JUndef (r !! k).

(** The document together with what the controller has set in motion:
    alerts shown, and requests issued and not yet settled. *)
Record state := mkState {
  elements : gmap string element;             (* getElementById *)
  stepper_buttons : list button;              (* $$('.stepper .icon-btn') *)
  onboarding : classList;                     (* $('#onboarding').classList *)
  chat : classList;                           (* $('#chat').classList *)
  messages : scroller;                        (* $('#messages') *)
  sendBtn_disabled : bool;
  chatInput_value : string;
  injuries_details_value : string;
  startBtn_listeners : nat;
  sendBtn_listeners : nat;
  chatInput_listeners : nat;
  alerts : list string;
  profile_pending : nat;                      (* calls of apiProfile awaited *)
  onboarding_pending : list payload;          (* calls of apiOnboarding awaited *)
  chat_pending : list string                  (* calls of apiChat awaited *)
}.

Definition set_elements (v : gmap string element) (s : state) : state :=
  let '(mkState _ b c d e f g h i j k l m n o) := s in
  mkState v b c d e f g h i j k l m n o.
Definition set_stepper_buttons (v : list button) (s : state) : state :=
  let '(mkState a _ c d e f g h i j k l m n o) := s in
  mkState a v c d e f g h i j k l m n o.
Definition set_onboarding (v : classList) (s : state) : state :=
  let '(mkState a b _ d e f g h i j k l m n o) := s in
  mkState a b v d e f g h i j k l m n o.
Definition set_chat (v : classList) (s : state) : state :=
  let '(mkState a b c _ e f g h i j k l m n o) := s in
  mkState a b c v e f g h i j k l m n o.
Definition set_messages (v : scroller) (s : state) : state :=
  let '(mkState a b c d _ f g h i j k l m n o) := s in
  mkState a b c d v f g h i j k l m n o.
Definition set_sendBtn_disabled (v : bool) (s : state) : state :=
  let '(mkState a b c d e _ g h i j k l m n o) := s in
  mkState a b c d e v g h i j k l m n o.
Definition set_chatInput_value (v : string) (s : state) : state :=
  let '(mkState a b c d e f _ h i j k l m n o) := s in
  mkState a b c d e f v h i j k l m n o.
(** The three [addEventListener] calls that end [initialize]: on
    [#startBtn], [#sendBtn] and [#chatInput]. *)
Definition add_handlers (s : state) : state :=
  let '(mkState a b c d e f g h i j k l m n o) := s in
  mkState a b c d e f g h (S i) (S j) (S k) l m n o.
Definition set_alerts (v : list string) (s : state) : state :=
  let '(mkState a b c d e f g h i j k _ m n o) := s in
  mkState a b c d e f g h i j k v m n o.
Definition set_profile_pending (v : nat) (s : state) : state :=
  let '(mkState a b c d e f g h i j k l _ n o) := s in
  mkState a b c d e f g h i j k l v n o.
Definition set_onboarding_pending (v : list payload) (s : state) : state :=
  let '(mkState a b c d e f g h i j k l m _ o) := s in
  mkState a b c d e f g h i j k l m v o.
Definition set_chat_pending (v : list string) (s : state) : state :=
  let '(mkState a b c d e f g h i j k l m n _) := s in
  mkState a b c d e f g h i j k l m n v.

(** ** The controller *)

Definition is_active (c : chip) : bool :=
  classList_contains "active" (chip_classList c).

Definition chip_add_listener (c : chip) : chip :=
  mkChip (chip_value c) (chip_classList c) (S (chip_listeners c)).

Definition chip_deactivate (c : chip) : chip :=
  mkChip (chip_value c) (classList_remove "active" (chip_classList c))
         (chip_listeners c).

Definition chip_activate (c : chip) : chip :=
  mkChip (chip_value c) (classList_add "active" (chip_classList c))
         (chip_listeners c).

Definition set_chips (cs : list chip) (e : element) : element :=
  mkElement (el_min e) (el_max e) (el_step e) (el_value e) cs.

Definition set_value (v : option string) (e : element) : element :=
  mkElement (el_min e) (el_max e) (el_step e) v (el_chips e).

(** Index of the first chip [Array.prototype.find] stops at. *)
Fixpoint find_index (p : chip -> bool) (cs : list chip) : option nat :=
  match cs with
  | [] => None
  | c :: r => if p c then Some 0%nat else S <$> find_index p r
  end.

(** The click listener of [setChipGroupSingle], attached to chip [i] of
    the container [containerId]: on the chips of the container, clear
    every chip, then mark the clicked one. *)
Definition select_chip (i : nat) (chips : list chip) : list chip :=
  let chips := chip_deactivate <$> chips in
  alter chip_activate i chips.

Definition chip_click (containerId : string) (i : nat) (s : state) : state :=
  match elements s !! containerId with
  | None => s
  | Some box =>
      set_elements
        (<[containerId := set_chips (select_chip i (el_chips box)) box]>
           (elements s)) s
  end.

(** [setChipGroupSingle] on the chips of the container: a listener on
    every chip, then the default. *)
Definition configure_chips (defaultVal : jsval) (chips : list chip) : list chip :=
  let chips := chip_add_listener <$> chips in
  if truthy defaultVal then
    match find_index
            (fun c => loose_eq_string (chip_value c) (ToString defaultVal))
            chips with
    | Some d => alter chip_activate d chips
    | None => chips
    end
  else chips.

Definition setChipGroupSingle (containerId : string) (defaultVal : jsval)
    (s : state) : state :=
  let defaultVal := match defaultVal with JUndef => JNull | v => v end in
  match elements s !! containerId with
  | None => s
  | Some box =>
      set_elements
        (<[containerId := set_chips (configure_chips defaultVal (el_chips box)) box]>
           (elements s)) s
  end.

Definition getActiveValue (containerId : string) (s : state) : jsval :=
  match elements s !! containerId with
  | None => JNull
  | Some box =>
      match List.find is_active (el_chips box) with
      | Some active => of_prop (chip_value active)
      | None => JNull
      end
  end.

(** What the stepper listener reads before it computes. *)
Definition read_delta (btn : button) : number :=
  parseInt (jor (of_prop (btn_step btn)) (JStr "0")).
Definition read_min (input : element) : number :=
  parseInt (jor (of_prop (el_min input)) (JStr "-9999")).
Definition read_max (input : element) : number :=
  parseInt (jor (of_prop (el_max input)) (JStr "9999")).
Definition read_step (input : element) : number :=
  parseInt (jor (of_prop (el_step input)) (JStr "1")).
Definition read_value (input : element) : number :=
  parseInt (jor (of_prop (el_value input)) (JStr "0")).

(** [val = val + delta * step; if (val < min) val = min;
     if (val > max) val = max] *)
Definition stepped (delta min max step val : number) : number :=
  let val := add val (mul delta step) in
  let val := if lt val min then min else val in
  let val := if lt max val then max else val in
  val.

(** [getElementById] applies ToString to its argument. *)
Definition step_target (btn : button) : string :=
  ToString (of_prop (btn_stepTarget btn)).

(** The click listener of [setupSteppers], attached to [btn]. *)
Definition stepper_click (btn : button) (s : state) : result state :=
  let id := step_target btn in
  let delta := read_delta btn in
  match elements s !! id with
  | None => Throw                              (* [input.min] on [null] *)
  | Some input =>
      let val := stepped delta (read_min input) (read_max input)
                         (read_step input) (read_value input) in
      Ok (set_elements
            (<[id := set_value (Some (Number_toString val)) input]> (elements s))
            s)
  end.

Definition button_add_listener (b : button) : button :=
  mkButton (btn_stepTarget b) (btn_step b) (S (btn_listeners b)).

Definition setupSteppers (s : state) : state :=
  set_stepper_buttons (button_add_listener <$> stepper_buttons s) s.

Definition showOnboarding (s : state) : state :=
  let s := set_onboarding (classList_remove "hidden" (onboarding s)) s in
  set_chat (classList_add "hidden" (chat s)) s.

Definition showChat (s : state) : state :=
  let s := set_onboarding (classList_add "hidden" (onboarding s)) s in
  set_chat (classList_remove "hidden" (chat s)) s.

(** The node [addMessage] builds. *)
Definition message_node (role : string) (text : jsval) : node :=
  let avatar :=
    Element "div" "avatar"
      (textContent_children
         (JStr (if String.eqb role "assistant" then "GB" else "You"))) in
  let bubble := Element "div" "bubble" (textContent_children text) in
  Element "div" ("message " +:+ role) [avatar; bubble].

Definition addMessage (role : string) (text : jsval) (s : state) : state :=
  let wrap := message_node role text in
  let list := appendChild wrap (messages s) in
  let list := set_scrollTop (scrollHeight list) list in
  set_messages list s.

(** [apiProfile], [apiOnboarding] and [apiChat] issue one request and
    await its body: the call is recorded as pending and the caller is
    resumed when it settles. *)
Inductive outcome :=
| Resolved (body : response)
| Rejected.                        (* network-level failure *)

(** [initialize], up to [await apiProfile()]. *)
Definition initialize_begin (s : state) : state :=
  let s := setupSteppers s in
  let s := setChipGroupSingle "gender" (JStr "male") s in
  let s := setChipGroupSingle "main_goal" (JStr "hypertrophy") s in
  let s := setChipGroupSingle "experience" (JStr "beginner") s in
  let s := setChipGroupSingle "days_per_week" (JStr "4") s in
  let s := setChipGroupSingle "minutes_per_workout" (JStr "60") s in
  let s := setChipGroupSingle "injuries_yes_no" (JStr "no") s in
  set_profile_pending (S (profile_pending s)) s.

(** [initialize], from the profile [p] on. *)
Definition initialize_resume (p : response) (s : state) : state :=
  let s :=
    if truthy (get p "ok") && truthy (get p "profile") then
      let s := showChat s in
      addMessage "assistant"
        (JStr ("Welcome back. Profile: " +:+ ToString (get p "profile_summary"))) s
    else showOnboarding s in
  add_handlers s.

(** [$('#id').value] *)
Definition value_of (id : string) (s : state) : result jsval :=
  match elements s !! id with
  | Some e => Ok (of_prop (el_value e))
  | None => Throw
  end.

(** [v === 'yes'] *)
Definition strict_eq_string (v : jsval) (t : string) : bool :=
  match v with
  | JStr u => String.eqb u t
  | _ => false
  end.

(** The click listener of [#startBtn], up to [await apiOnboarding(payload)]. *)
Definition start_begin (s : state) : result state :=
  match value_of "weight" s, value_of "height" s, value_of "age" s with
  | Ok w, Ok h, Ok a =>
      let payload :=
        {| weight_kg := parseInt w;
           height_cm := parseInt h;
           age := parseInt a;
           gender := getActiveValue "gender" s;
           main_goal := getActiveValue "main_goal" s;
           experience := getActiveValue "experience" s;
           days_per_week := parseInt (getActiveValue "days_per_week" s);
           minutes_per_workout := parseInt (getActiveValue "minutes_per_workout" s);
           injuries_yes_no := strict_eq_string (getActiveValue "injuries_yes_no" s) "yes";
           injuries_details := trim (injuries_details_value s) |} in
      Ok (set_onboarding_pending (onboarding_pending s ++ [payload]) s)
  | _, _, _ => Throw
  end.

(** The click listener of [#startBtn], from the response [res] on. *)
Definition start_resume (res : response) (s : state) : state :=
  if negb (truthy (get res "ok")) then
    let shown := jor (get res "error") (JStr "Please complete the required fields.") in
    set_alerts (alerts s ++ [ToString shown]) s
  else
    let s := showChat s in
    addMessage "assistant"
      (JStr ("Your profile: " +:+ ToString (get res "profile_summary"))) s.

(** [send], up to [await apiChat(text)]. *)
Definition send_begin (s : state) : state :=
  let text := trim (chatInput_value s) in
  if String.eqb text "" then s
  else
    let s := set_chatInput_value "" s in
    let s := addMessage "user" (JStr text) s in
    let s := set_sendBtn_disabled true s in
    set_chat_pending (chat_pending s ++ [text]) s.

(** [send], from the settled request on: the [try] body, the [catch]
    clause on a rejection, then the [finally] clause. *)
Definition send_resume (o : outcome) (s : state) : state :=
  let s :=
    match o with
    | Resolved res =>
        if truthy (get res "ok") then addMessage "assistant" (get res "reply") s
        else addMessage "assistant"
               (jor (get res "error") (JStr "Error generating reply.")) s
    | Rejected => addMessage "assistant" (JStr "Network error.") s
    end in
  set_sendBtn_disabled false s.

(** The keydown listener of [#chatInput]; [preventDefault] changes nothing
    of the state kept here. *)
Definition chatInput_keydown (key : string) (s : state) : state :=
  if String.eqb key "Enter" then send_begin s else s.

(** ** The event loop *)

Inductive event :=
| ChipClick (containerId : string) (i : nat)   (* click on the i-th chip *)
| StepperClick (i : nat)                       (* click on the i-th stepper button *)
| ChatInputEdit (text : string)                (* the user edits #chatInput *)
| ChatInputKeydown (key : string)
| SendClick
| StartClick
| ProfileSettles (o : outcome)
| OnboardingSettles (k : nat) (o : outcome)    (* the k-th pending request *)
| ChatSettles (k : nat) (o : outcome).

(** A listener that throws leaves the document as it found it. *)
Definition or_unchanged (s : state) (r : result state) : state :=
  match r with
  | Ok s' => s'
  | Throw => s
  end.

(** One turn of the event loop.  A click runs every listener attached to
    its target; a disabled button receives no click. *)
Definition step (e : event) (s : state) : state :=
  match e with
  | ChipClick containerId i =>
      match elements s !! containerId with
      | Some box =>
          match el_chips box !! i with
          | Some c => Nat.iter (chip_listeners c) (chip_click containerId i) s
          | None => s
          end
      | None => s
      end
  | StepperClick i =>
      match stepper_buttons s !! i with
      | Some btn =>
          Nat.iter (btn_listeners btn)
                   (fun s => or_unchanged s (stepper_click btn s)) s
      | None => s
      end
  | ChatInputEdit text => set_chatInput_value text s
  | ChatInputKeydown key =>
      Nat.iter (chatInput_listeners s) (chatInput_keydown key) s
  | SendClick =>
      if sendBtn_disabled s then s
      else Nat.iter (sendBtn_listeners s) send_begin s
  | StartClick =>
      Nat.iter (startBtn_listeners s) (fun s => or_unchanged s (start_begin s)) s
  | ProfileSettles o =>
      match profile_pending s with
      | O => s
      | S n =>
          let s := set_profile_pending n s in
          match o with
          | Resolved p => initialize_resume p s
          | Rejected => s
          end
      end
  | OnboardingSettles k o =>
      match onboarding_pending s !! k with
      | None => s
      | Some _ =>
          let s := set_onboarding_pending (delete k (onboarding_pending s)) s in
          match o with
          | Resolved res => start_resume res s
          | Rejected => s
          end
      end
  | ChatSettles k o =>
      match chat_pending s !! k with
      | None => s
      | Some _ =>
          let s := set_chat_pending (delete k (chat_pending s)) s in
          send_resume o s
      end
  end.

Definition run (evs : list event) (s : state) : state :=
  fold_left (fun s e => step e s) evs s.

(** [DOMContentLoaded] *)
Definition load (s : state) : state := initialize_begin s.

(** ** Vocabulary of the properties *)

(** A section is shown unless its class list holds [hidden]. *)
Definition unhidden (cl : classList) : Prop := "hidden" ∉ cl.
Definition hidden (cl : classList) : Prop := "hidden" ∈ cl.

(** The transcript: the children of [#messages], oldest first. *)
Definition transcript (s : state) : list node := sc_childNodes (messages s).

(** The chips of a group, and how many of them bear [active]. *)
Definition group_chips (containerId : string) (s : state) : list chip :=
  match elements s !! containerId with
  | Some box => el_chips box
  | None => []
  end.

Definition count_active (cs : list chip) : nat :=
  length (List.filter is_active cs).


(** Chip [k] is the first chip of the list whose value attribute is [v]. *)
Definition first_with_value (v : string) (cs : list chip) (k : nat) : Prop :=
  (exists c, cs !! k = Some c /\ chip_value c = Some v)
  /\ forall j c, (j < k)%nat -> cs !! j = Some c -> chip_value c <> Some v.


(** The text an input displays. *)
Definition displayed (id : string) (s : state) : option string :=
  elements s !! id ≫= el_value.



(** The state a call of [showOnboarding] or [showChat] leaves. *)
Inductive view_call :=
| ShowOnboarding
| ShowChat.

Definition call_view (c : view_call) (s : state) : state :=
  match c with
  | ShowOnboarding => showOnboarding s
  | ShowChat => showChat s
  end.

Definition call_views (cs : list view_call) (s : state) : state :=
  fold_left (fun s c => call_view c s) cs s.

(** A message of the transcript as it is rendered: the class of the
    wrapper, the avatar label and the text of the bubble. *)
Definition rendered_message (role label text : string) : node :=
  Element "div" ("message " +:+ role)
    [Element "div" "avatar" [Text label];
     Element "div" "bubble" (if String.eqb text "" then [] else [Text text])].


(** What stands between a click on [#sendBtn] and a chat request. *)
Definition is_keydown (e : event) : bool :=
  match e with
  | ChatInputKeydown _ => true
  | _ => false
  end.

(** The part of the state the chat flow reads and writes. *)
Definition send_guard (s : state) : nat * nat * list string * bool :=
  (sendBtn_listeners s, profile_pending s, chat_pending s, sendBtn_disabled s).

(** At most one chat request is pending, and none while the send button
    is enabled. *)
Definition one_at_a_time (s : state) : Prop :=
  (sendBtn_listeners s + profile_pending s <= 1)%nat
  /\ (length (chat_pending s) <= 1)%nat
  /\ (sendBtn_disabled s = false -> chat_pending s = []).

(** A document with no element found by id, no stepper button, both
    sections shown and an empty transcript in a box [h] high, where every
    message is laid out 40 high. *)
Definition blank (h : N) : state :=
  mkState ∅ [] ∅ ∅ (mkScroller [] 0 h (fun l => (40 * N.of_nat (length l))%N))
          false "" "" 0 0 0 [] 0 [] [].

(** The same document with the elements [els] and the stepper buttons
    [btns]. *)
Definition page_of (els : gmap string element) (btns : list button) : state :=
  set_stepper_buttons btns (set_elements els (blank 100)).



(** A chat text as [send] passes it on: not empty, and with no white
    space left to trim. *)
Definition trimmed_nonempty (t : string) : Prop := t <> "" /\ trim t = t.

(** Nothing has been started on [s] that was not on [s0]: no listener on
    the start button, the send button or the chat input, no onboarding or
    chat request pending, and the transcript, the alerts and the two
    sections as on [s0]. *)
Definition quiet_like (s0 s : state) : Prop :=
  startBtn_listeners s = 0%nat /\ sendBtn_listeners s = 0%nat
  /\ chatInput_listeners s = 0%nat
  /\ chat_pending s = [] /\ onboarding_pending s = []
  /\ messages s = messages s0 /\ alerts s = alerts s0
  /\ onboarding s = onboarding s0 /\ chat s = chat s0.

(** ** Numbers and their decimal form *)

Section Decimal.







End Decimal.

(** ** Steppers *)

Section Steppers.





Lemma elements_set_elements (m : gmap string element) (s : state) :
  elements (set_elements m s) = m.
Proof. destruct s; reflexivity. Qed.










End Steppers.

(** ** Chip groups *)

Section Chips.

Lemma is_active_deactivate (c : chip) : is_active (chip_deactivate c) = false.
Proof.
  unfold is_active, classList_contains, chip_deactivate, classList_remove.
  cbn [chip_classList]. apply bool_decide_eq_false.
  rewrite elem_of_difference, elem_of_singleton. tauto.
Qed.

Lemma is_active_activate (c : chip) : is_active (chip_activate c) = true.
Proof.
  unfold is_active, classList_contains, chip_activate, classList_add.
  cbn [chip_classList]. apply bool_decide_eq_true.
  rewrite elem_of_union, elem_of_singleton. tauto.
Qed.

Lemma count_active_deactivated (cs : list chip) :
  count_active (chip_deactivate <$> cs) = 0%nat.
Proof.
  unfold count_active. induction cs as [|c r IH]; [reflexivity|].
  cbn [fmap list_fmap List.filter]. rewrite is_active_deactivate. exact IH.
Qed.

Lemma count_active_add_listener (cs : list chip) :
  count_active (chip_add_listener <$> cs) = count_active cs.
Proof.
  unfold count_active. induction cs as [|c r IH]; [reflexivity|].
  cbn [fmap list_fmap List.filter].
  change (is_active (chip_add_listener c)) with (is_active c).
  destruct (is_active c); cbn [length]; fold (@fmap list _ _ _ chip_add_listener r);
    rewrite IH; reflexivity.
Qed.








Lemma group_chips_chip_click (id : string) (i : nat) (s : state) :
  group_chips id (chip_click id i s) = select_chip i (group_chips id s).
Proof.
  unfold chip_click, group_chips. destruct (elements s !! id) as [box|] eqn:E.
  - rewrite elements_set_elements, lookup_insert_eq. reflexivity.
  - rewrite E. reflexivity.
Qed.


Lemma group_chips_iter_chip_click (id : string) (n i : nat) (s : state) :
  group_chips id (Nat.iter n (chip_click id i) s)
  = Nat.iter n (select_chip i) (group_chips id s).
Proof.
  induction n as [|n IH]; [reflexivity|]. cbn [Nat.iter nat_rect].
  rewrite group_chips_chip_click. f_equal. exact IH.
Qed.




(** The flows that do not touch the elements found by id. *)
Lemma elements_addMessage (role : string) (text : jsval) (s : state) :
  elements (addMessage role text s) = elements s.
Proof. destruct s; reflexivity. Qed.

Lemma elements_showChat (s : state) : elements (showChat s) = elements s.
Proof. destruct s; reflexivity. Qed.

Lemma elements_showOnboarding (s : state) : elements (showOnboarding s) = elements s.
Proof. destruct s; reflexivity. Qed.















Lemma group_chips_configure (id : string) (d : jsval) (s : state) :
  group_chips id (setChipGroupSingle id d s)
  = configure_chips (match d with JUndef => JNull | v => v end) (group_chips id s).
Proof.
  unfold setChipGroupSingle, group_chips.
  destruct (elements s !! id) as [box|] eqn:E.
  - rewrite elements_set_elements, lookup_insert_eq. reflexivity.
  - rewrite E. unfold configure_chips. destruct (truthy _); reflexivity.
Qed.

Lemma loose_eq_string_true (o : option string) (v : string) :
  loose_eq_string o v = true <-> o = Some v.
Proof.
  destruct o as [t|]; cbn [loose_eq_string]; [|split; discriminate].
  rewrite String.eqb_eq. split; congruence.
Qed.

Lemma find_index_add_listener (v : string) (cs : list chip) :
  find_index (fun c => loose_eq_string (chip_value c) v) (chip_add_listener <$> cs)
  = find_index (fun c => loose_eq_string (chip_value c) v) cs.
Proof.
  induction cs as [|c r IH]; [reflexivity|].
  cbn [fmap list_fmap find_index chip_add_listener chip_value].
  fold (@fmap list _ _ _ chip_add_listener r). rewrite IH. reflexivity.
Qed.

Lemma find_index_first (v : string) (cs : list chip) (k : nat) :
  first_with_value v cs k ->
  find_index (fun c => loose_eq_string (chip_value c) v) cs = Some k.
Proof.
  revert k. induction cs as [|c r IH]; intros k [(c0 & Hk & Hv) Hbefore].
  - discriminate.
  - cbn [find_index]. destruct k as [|k].
    + injection Hk as ->. rewrite (proj2 (loose_eq_string_true _ _) Hv). reflexivity.
    + destruct (loose_eq_string (chip_value c) v) eqn:E.
      * apply loose_eq_string_true in E.
        exfalso. apply (Hbefore 0%nat c); [lia | reflexivity | exact E].
      * rewrite (IH k); [reflexivity|]. split; [exists c0; split; assumption|].
        intros j c1 Hj Hl. apply (Hbefore (S j) c1); [lia | exact Hl].
Qed.










End Chips.

(** ** The two views *)

Section Views.

Lemma hidden_add (cl : classList) : hidden (classList_add "hidden" cl).
Proof. unfold hidden, classList_add. rewrite elem_of_union, elem_of_singleton. tauto. Qed.

Lemma unhidden_remove (cl : classList) : unhidden (classList_remove "hidden" cl).
Proof.
  unfold unhidden, classList_remove. rewrite elem_of_difference, elem_of_singleton. tauto.
Qed.

Lemma showOnboarding_views (s : state) :
  onboarding (showOnboarding s) = classList_remove "hidden" (onboarding s)
  /\ chat (showOnboarding s) = classList_add "hidden" (chat s).
Proof. destruct s; split; reflexivity. Qed.

Lemma showChat_views (s : state) :
  onboarding (showChat s) = classList_add "hidden" (onboarding s)
  /\ chat (showChat s) = classList_remove "hidden" (chat s).
Proof. destruct s; split; reflexivity. Qed.

Lemma showOnboarding_shows (s : state) :
  unhidden (onboarding (showOnboarding s)) /\ hidden (chat (showOnboarding s)).
Proof.
  destruct (showOnboarding_views s) as [-> ->].
  split; [apply unhidden_remove | apply hidden_add].
Qed.

Lemma showChat_shows (s : state) :
  hidden (onboarding (showChat s)) /\ unhidden (chat (showChat s)).
Proof.
  destruct (showChat_views s) as [-> ->].
  split; [apply hidden_add | apply unhidden_remove].
Qed.

(** C8: after any sequence of calls of [showOnboarding] and [showChat],
    the last call alone decides which section is shown: [showOnboarding]
    leaves the onboarding section unhidden and the chat section hidden,
    [showChat] the inverse, whatever the calls before it and the state
    they started from. *)
Theorem last_view_call_decides (calls : list view_call) (last : view_call)
    (s : state) :
  let s' := call_views (calls ++ [last]) s in
  match last with
  | ShowOnboarding => unhidden (onboarding s') /\ hidden (chat s')
  | ShowChat => hidden (onboarding s') /\ unhidden (chat s')
  end.
Proof.
  intros s'. subst s'. unfold call_views. rewrite fold_left_app. cbn [fold_left].
  destruct last; cbn [call_view]; [apply showOnboarding_shows | apply showChat_shows].
Qed.

End Views.

(** ** The transcript *)

Section Transcript.

Lemma message_node_rendered (role : string) (text : jsval) :
  message_node role text
  = rendered_message role (if String.eqb role "assistant" then "GB" else "You")
                     (DOMString_of text).
Proof.
  unfold message_node, rendered_message, textContent_children.
  destruct (String.eqb role "assistant"); reflexivity.
Qed.

Lemma transcript_addMessage (role : string) (text : jsval) (s : state) :
  transcript (addMessage role text s) = (transcript s ++ [message_node role text])%list.
Proof. destruct s; reflexivity. Qed.

Lemma messages_addMessage (role : string) (text : jsval) (s : state) :
  messages (addMessage role text s)
  = set_scrollTop (scrollHeight (appendChild (message_node role text) (messages s)))
                  (appendChild (message_node role text) (messages s)).
Proof. destruct s; reflexivity. Qed.

Lemma scrolled_to_bottom (m : scroller) :
  sc_scrollTop (set_scrollTop (scrollHeight m) m)
  = scrollTopMax (set_scrollTop (scrollHeight m) m).
Proof.
  unfold set_scrollTop, scrollTopMax, scrollHeight.
  cbn [sc_scrollTop sc_childNodes sc_clientHeight sc_layout]. lia.
Qed.

(** C9: [addMessage(role, text)] appends exactly one node to the
    transcript; its label is [GB] when the role is [assistant] and [You]
    for every other role; its bubble holds the text as one text node (none
    for the empty string), never as markup; and afterwards the scroll
    offset of the transcript is the largest one it can have.  The call is
    total: no role and no text is refused. *)
Theorem addMessage_appends_and_scrolls (role : string) (text : jsval) (s : state) :
  let s' := addMessage role text s in
  (exists label,
      transcript s' = (transcript s ++ [rendered_message role label (DOMString_of text)])%list
      /\ (role = "assistant" -> label = "GB")
      /\ (role <> "assistant" -> label = "You"))
  /\ (forall t, text = JStr t -> DOMString_of text = t)
  /\ sc_scrollTop (messages s') = scrollTopMax (messages s').
Proof.
  intros s'. subst s'. split; [|split].
  - exists (if String.eqb role "assistant" then "GB" else "You").
    rewrite transcript_addMessage, message_node_rendered.
    split; [reflexivity|]. split.
    + intros ->. reflexivity.
    + intros Hne. apply String.eqb_neq in Hne. rewrite Hne. reflexivity.
  - intros t ->. reflexivity.
  - rewrite messages_addMessage. apply scrolled_to_bottom.
Qed.

(** C9, witness: a user message whose text looks like markup, added to a
    transcript taller than its box. *)
Lemma addMessage_appends_and_scrolls_witness :
  let s := addMessage "assistant" (JStr "hello") (addMessage "user" (JStr "hi")
             (blank 50)) in
  let s' := addMessage "user" (JStr "<b>bold</b>") s in
  transcript s'
  = (transcript s
     ++ [Element "div" "message user"
           [Element "div" "avatar" [Text "You"];
            Element "div" "bubble" [Text "<b>bold</b>"]]])%list
  /\ sc_scrollTop (messages s') = 70%N.
Proof.
  intros s s'.
  destruct (addMessage_appends_and_scrolls "user" (JStr "<b>bold</b>") s)
    as ((label & Ht & _ & Hyou) & _ & Hs).
  fold s' in Ht, Hs. split.
  - rewrite Ht, (Hyou ltac:(discriminate)). reflexivity.
  - rewrite Hs. reflexivity.
Defined.

End Transcript.

(** ** Initialization, onboarding and chat *)

Section Flows.

Lemma rendered_text (role : string) (text : string) (s : state) :
  transcript (addMessage role (JStr text) s)
  = (transcript s
     ++ [rendered_message role (if String.eqb role "assistant" then "GB" else "You")
                          text])%list.
Proof. rewrite transcript_addMessage, message_node_rendered. reflexivity. Qed.

Lemma views_addMessage (role : string) (text : jsval) (s : state) :
  onboarding (addMessage role text s) = onboarding s
  /\ chat (addMessage role text s) = chat s.
Proof. destruct s; split; reflexivity. Qed.

Lemma add_handlers_keeps (s : state) :
  onboarding (add_handlers s) = onboarding s /\ chat (add_handlers s) = chat s
  /\ transcript (add_handlers s) = transcript s.
Proof. destruct s; repeat split; reflexivity. Qed.

Lemma transcript_showChat (s : state) : transcript (showChat s) = transcript s.
Proof. destruct s; reflexivity. Qed.

Lemma transcript_showOnboarding (s : state) :
  transcript (showOnboarding s) = transcript s.
Proof. destruct s; reflexivity. Qed.

(** C5: when the profile fetch resolves with a truthy [ok] and a truthy
    (present) [profile], initialization leaves the chat section unhidden,
    the onboarding section hidden, and appends exactly one assistant
    message, the welcome text followed by the profile summary; when [ok] or
    [profile] is falsy or absent it leaves the onboarding section unhidden,
    the chat section hidden and the transcript as it was, so empty if it
    was empty. *)
Theorem initialize_profile_outcome (p : response) (s : state) :
  let s' := initialize_resume p s in
  (truthy (get p "ok") = true -> truthy (get p "profile") = true ->
   unhidden (chat s') /\ hidden (onboarding s')
   /\ transcript s'
      = (transcript s
         ++ [rendered_message "assistant" "GB"
               ("Welcome back. Profile: " +:+ ToString (get p "profile_summary"))])%list)
  /\ (truthy (get p "ok") = false \/ truthy (get p "profile") = false ->
      unhidden (onboarding s') /\ hidden (chat s')
      /\ transcript s' = transcript s
      /\ (transcript s = [] -> transcript s' = [])).
Proof.
  intros s'. subst s'. unfold initialize_resume.
  destruct (add_handlers_keeps
              (if truthy (get p "ok") && truthy (get p "profile")
               then addMessage "assistant"
                      (JStr ("Welcome back. Profile: "
                             +:+ ToString (get p "profile_summary"))) (showChat s)
               else showOnboarding s)) as (-> & -> & ->).
  split.
  - intros -> ->. cbn [andb].
    destruct (views_addMessage "assistant"
                (JStr ("Welcome back. Profile: " +:+ ToString (get p "profile_summary")))
                (showChat s)) as [-> ->].
    destruct (showChat_shows s) as [Ho Hc].
    rewrite rendered_text, transcript_showChat. repeat split; assumption.
  - intros H.
    assert (truthy (get p "ok") && truthy (get p "profile") = false) as ->.
    { destruct H as [-> | ->]; [reflexivity | apply andb_false_r]. }
    destruct (showOnboarding_shows s) as [Ho Hc].
    rewrite transcript_showOnboarding. repeat split; try assumption. intros ->.
    reflexivity.
Qed.

(** C5, witness: the profile of the specification's example, then a
    response with [ok] false, each on an empty transcript with both
    sections as the markup has them. *)
Lemma initialize_profile_outcome_witness :
  let s := set_chat {["hidden"]} (blank 100) in
  let present : response :=
    {[ "ok" := JBool true; "profile" := JObj;
       "profile_summary" := JStr "5x/week hypertrophy plan" ]} in
  let absent : response := {[ "ok" := JBool false ]} in
  (unhidden (chat (initialize_resume present s))
   /\ transcript (initialize_resume present s)
      = [rendered_message "assistant" "GB"
           "Welcome back. Profile: 5x/week hypertrophy plan"])
  /\ (unhidden (onboarding (initialize_resume absent s))
      /\ transcript (initialize_resume absent s) = []).
Proof.
  intros s present absent. split.
  - destruct (proj1 (initialize_profile_outcome present s) eq_refl eq_refl)
      as (Hc & _ & Ht).
    split; [exact Hc | exact Ht].
  - destruct (proj2 (initialize_profile_outcome absent s) (or_introl eq_refl))
      as (Ho & _ & _ & He).
    split; [exact Ho | exact (He eq_refl)].
Defined.

Lemma start_resume_failed (res : response) (s : state) :
  truthy (get res "ok") = false ->
  start_resume res s
  = set_alerts
      (alerts s
       ++ [ToString (jor (get res "error")
                         (JStr "Please complete the required fields."))]) s.
Proof. intros H. unfold start_resume. rewrite H. reflexivity. Qed.

Lemma set_alerts_keeps (v : list string) (s : state) :
  alerts (set_alerts v s) = v /\ onboarding (set_alerts v s) = onboarding s
  /\ chat (set_alerts v s) = chat s /\ transcript (set_alerts v s) = transcript s.
Proof. destruct s; repeat split; reflexivity. Qed.

Lemma jor_string (e d : string) : e <> "" -> jor (JStr e) (JStr d) = JStr e.
Proof.
  intros H. unfold jor. cbn [truthy]. apply String.eqb_neq in H. rewrite H. reflexivity.
Qed.

Lemma jor_falsy (v d : jsval) : truthy v = false -> jor v d = d.
Proof. intros H. unfold jor. rewrite H. reflexivity. Qed.

(** C6: when the submission resolves with a falsy [ok], the start flow
    alerts the error string of the response, or the generic message when
    the response has no error (or an empty one), and leaves both sections
    and the transcript as they were, so the onboarding section stays
    unhidden and the chat section hidden; when it resolves with a truthy
    [ok], the chat section is unhidden, the onboarding section hidden, and
    exactly one assistant message with the returned summary is appended,
    with no alert. *)
Theorem start_response_outcome (res : response) (s : state) :
  let s' := start_resume res s in
  (truthy (get res "ok") = false ->
   (forall e, get res "error" = JStr e -> e <> "" ->
              alerts s' = (alerts s ++ [e])%list)
   /\ (truthy (get res "error") = false ->
       alerts s' = (alerts s ++ ["Please complete the required fields."])%list)
   /\ onboarding s' = onboarding s /\ chat s' = chat s
   /\ (unhidden (onboarding s) -> hidden (chat s) ->
       unhidden (onboarding s') /\ hidden (chat s'))
   /\ transcript s' = transcript s)
  /\ (truthy (get res "ok") = true ->
      unhidden (chat s') /\ hidden (onboarding s')
      /\ transcript s'
         = (transcript s
            ++ [rendered_message "assistant" "GB"
                  ("Your profile: " +:+ ToString (get res "profile_summary"))])%list
      /\ alerts s' = alerts s).
Proof.
  intros s'. subst s'. split.
  - intros Hok. rewrite (start_resume_failed _ _ Hok).
    destruct (set_alerts_keeps
                (alerts s ++ [ToString (jor (get res "error")
                                 (JStr "Please complete the required fields."))]) s)
      as (-> & -> & -> & ->).
    repeat split; try assumption.
    + intros e -> Hne. rewrite (jor_string _ _ Hne). reflexivity.
    + intros Hf. rewrite (jor_falsy _ _ Hf). reflexivity.
  - intros Hok. unfold start_resume. rewrite Hok. cbn [negb].
    destruct (views_addMessage "assistant"
                (JStr ("Your profile: " +:+ ToString (get res "profile_summary")))
                (showChat s)) as [Eo Ec].
    rewrite Eo, Ec, rendered_text, transcript_showChat.
    destruct (showChat_shows s) as [Ho Hc].
    repeat split; try assumption. destruct s; reflexivity.
Qed.

(** C6, witness: the failure of the specification's example, a failure
    without error text, and a success. *)
Lemma start_response_outcome_witness :
  let s := set_chat {["hidden"]} (blank 100) in
  let refused : response := {[ "ok" := JBool false; "error" := JStr "Age is required" ]} in
  let silent : response := {[ "ok" := JBool false ]} in
  let accepted : response :=
    {[ "ok" := JBool true; "profile_summary" := JStr "3x/week" ]} in
  (alerts (start_resume refused s) = ["Age is required"]
   /\ unhidden (onboarding (start_resume refused s))
   /\ hidden (chat (start_resume refused s)))
  /\ alerts (start_resume silent s) = ["Please complete the required fields."]
  /\ (unhidden (chat (start_resume accepted s))
      /\ transcript (start_resume accepted s)
         = [rendered_message "assistant" "GB" "Your profile: 3x/week"]).
Proof.
  intros s refused silent accepted.
  assert (unhidden (onboarding s)) as Ho by (vm_compute; discriminate).
  assert (hidden (chat s)) as Hc by (vm_compute; reflexivity).
  split; [|split].
  - destruct (proj1 (start_response_outcome refused s) eq_refl)
      as (He & _ & _ & _ & Hv & _).
    split; [exact (He "Age is required" eq_refl ltac:(discriminate)) | exact (Hv Ho Hc)].
  - destruct (proj1 (start_response_outcome silent s) eq_refl) as (_ & Hf & _).
    exact (Hf eq_refl).
  - destruct (proj2 (start_response_outcome accepted s) eq_refl) as (Hchat & _ & Ht & _).
    split; [exact Hchat | exact Ht].
Defined.

Lemma send_begin_sends (s : state) :
  trim (chatInput_value s) <> "" ->
  send_begin s
  = set_chat_pending (chat_pending s ++ [trim (chatInput_value s)])
      (set_sendBtn_disabled true
         (addMessage "user" (JStr (trim (chatInput_value s)))
            (set_chatInput_value "" s))).
Proof.
  intros H. unfold send_begin. apply String.eqb_neq in H. rewrite H.
  destruct s; reflexivity.
Qed.

Lemma send_resume_message (text : jsval) (t : state) :
  let t' := set_sendBtn_disabled false (addMessage "assistant" text t) in
  sendBtn_disabled t' = false
  /\ transcript t'
     = (transcript t ++ [rendered_message "assistant" "GB" (DOMString_of text)])%list
  /\ chat_pending t' = chat_pending t.
Proof. destruct t; repeat split; reflexivity. Qed.

(** C7: [send] with an input that trims to the empty string changes
    nothing: no request, no message.  Otherwise it clears the input,
    appends a user message with the trimmed text, disables the send
    control and issues the chat request with that text.  When the request
    settles, one assistant message is appended: the reply when [ok] is
    truthy, the error string of the response (or the fallback text when it
    has none) when [ok] is falsy, and ["Network error."] when the request
    was rejected; and the send control is enabled again in every case. *)
Theorem send_flow (s t : state) (o : outcome) :
  let text := trim (chatInput_value s) in
  let s' := send_begin s in
  let t' := send_resume o t in
  (text = "" -> s' = s)
  /\ (text <> "" ->
      chatInput_value s' = ""
      /\ transcript s' = (transcript s ++ [rendered_message "user" "You" text])%list
      /\ sendBtn_disabled s' = true
      /\ chat_pending s' = (chat_pending s ++ [text])%list)
  /\ sendBtn_disabled t' = false
  /\ (forall res, o = Resolved res -> truthy (get res "ok") = true ->
      transcript t'
      = (transcript t
         ++ [rendered_message "assistant" "GB" (DOMString_of (get res "reply"))])%list)
  /\ (forall res e, o = Resolved res -> truthy (get res "ok") = false ->
      get res "error" = JStr e -> e <> "" ->
      transcript t' = (transcript t ++ [rendered_message "assistant" "GB" e])%list)
  /\ (forall res, o = Resolved res -> truthy (get res "ok") = false ->
      truthy (get res "error") = false ->
      transcript t'
      = (transcript t
         ++ [rendered_message "assistant" "GB" "Error generating reply."])%list)
  /\ (o = Rejected ->
      transcript t'
      = (transcript t ++ [rendered_message "assistant" "GB" "Network error."])%list).
Proof.
  intros text s' t'. subst text s' t'. split; [|split; [|split; [|repeat split]]].
  - intros H. unfold send_begin. rewrite H. reflexivity.
  - intros H. rewrite (send_begin_sends _ H). destruct s; repeat split; reflexivity.
  - unfold send_resume. destruct o as [res|]; [destruct (truthy (get res "ok"))|];
      apply send_resume_message.
  - intros res -> Hok. unfold send_resume. rewrite Hok.
    apply send_resume_message.
  - intros res e -> Hok He Hne. unfold send_resume. rewrite Hok, He, (jor_string _ _ Hne).
    apply send_resume_message.
  - intros res -> Hok Hf. unfold send_resume. rewrite Hok, (jor_falsy _ _ Hf).
    apply send_resume_message.
  - intros ->. apply send_resume_message.
Qed.

(** C7, witness: the example of the specification, ["hello"] answered by
    ["Hi there"], and a blank input. *)
Lemma send_flow_witness :
  let s := set_chatInput_value " hello " (blank 100) in
  let reply : response := {[ "ok" := JBool true; "reply" := JStr "Hi there" ]} in
  send_begin (set_chatInput_value "   " (blank 100)) = set_chatInput_value "   " (blank 100)
  /\ chat_pending (send_begin s) = ["hello"]
  /\ transcript (send_resume (Resolved reply) (send_begin s))
     = [rendered_message "user" "You" "hello";
        rendered_message "assistant" "GB" "Hi there"]
  /\ sendBtn_disabled (send_resume (Resolved reply) (send_begin s)) = false.
Proof.
  intros s reply.
  destruct (send_flow (set_chatInput_value "   " (blank 100)) (send_begin s)
                      (Resolved reply)) as (Hblank & _).
  destruct (send_flow s (send_begin s) (Resolved reply))
    as (_ & Hsend & Hen & Hok & _).
  destruct (Hsend ltac:(discriminate)) as (_ & Ht & _ & Hp).
  split; [exact (Hblank eq_refl)|]. split; [exact Hp|]. split; [|exact Hen].
  rewrite (Hok reply eq_refl eq_refl), Ht. reflexivity.
Defined.

(** The click path is guarded: a disabled send button issues nothing. *)
Lemma send_click_guarded (s : state) :
  sendBtn_disabled s = true -> step SendClick s = s.
Proof. intros H. cbn [step]. rewrite H. reflexivity. Qed.

(** Without the Enter key the guard holds: from a freshly loaded page, no
    sequence of events other than key presses in the chat input ever has
    two chat requests pending. *)
Lemma send_guard_chip_click (id : string) (i : nat) (s : state) :
  send_guard (chip_click id i s) = send_guard s.
Proof.
  unfold chip_click. destruct (elements s !! id); [|reflexivity]. destruct s; reflexivity.
Qed.

Lemma send_guard_stepper_click (btn : button) (s : state) :
  send_guard (or_unchanged s (stepper_click btn s)) = send_guard s.
Proof.
  unfold stepper_click. destruct (elements s !! step_target btn); [|reflexivity].
  destruct s; reflexivity.
Qed.

Lemma send_guard_start_begin (s : state) :
  send_guard (or_unchanged s (start_begin s)) = send_guard s.
Proof.
  unfold start_begin.
  destruct (value_of "weight" s), (value_of "height" s), (value_of "age" s);
    try reflexivity.
  destruct s; reflexivity.
Qed.

Lemma send_guard_start_resume (res : response) (s : state) :
  send_guard (start_resume res s) = send_guard s.
Proof. unfold start_resume. destruct (negb _); destruct s; reflexivity. Qed.

Lemma send_guard_iter (f : state -> state) (n : nat) (s : state) :
  (forall s, send_guard (f s) = send_guard s) ->
  send_guard (Nat.iter n f s) = send_guard s.
Proof.
  intros Hf. induction n as [|n IH]; [reflexivity|]. cbn [Nat.iter nat_rect].
  rewrite Hf. exact IH.
Qed.

Lemma send_guard_initialize_begin (s : state) :
  send_guard (initialize_begin s)
  = (sendBtn_listeners s, S (profile_pending s), chat_pending s, sendBtn_disabled s).
Proof.
  assert (forall id d s, send_guard (setChipGroupSingle id d s) = send_guard s) as C.
  { intros id d s0. unfold setChipGroupSingle.
    destruct (elements s0 !! id); [|reflexivity]. destruct s0; reflexivity. }
  unfold initialize_begin.
  set (s6 := setChipGroupSingle "injuries_yes_no" _ _).
  assert (send_guard s6 = send_guard s) as E.
  { subst s6. rewrite !C. destruct s; reflexivity. }
  unfold send_guard in *. destruct s6; cbn in *. congruence.
Qed.

Lemma one_at_a_time_guard (s s' : state) :
  send_guard s' = send_guard s -> one_at_a_time s -> one_at_a_time s'.
Proof.
  unfold send_guard, one_at_a_time. intros [= -> -> -> ->]. tauto.
Qed.

Lemma one_at_a_time_step (e : event) (s : state) :
  is_keydown e = false -> one_at_a_time s -> one_at_a_time (step e s).
Proof.
  intros Hk I.
  destruct e as [id i|i|text|key| | |o|k o|k o]; cbn [step]; try discriminate.
  - destruct (elements s !! id) as [box|]; [|exact I].
    destruct (el_chips box !! i) as [c|]; [|exact I].
    refine (one_at_a_time_guard _ _ _ I). apply send_guard_iter.
    intros s0. apply send_guard_chip_click.
  - destruct (stepper_buttons s !! i) as [btn|]; [|exact I].
    refine (one_at_a_time_guard _ _ _ I). apply send_guard_iter.
    intros s0. apply send_guard_stepper_click.
  - refine (one_at_a_time_guard _ _ _ I). destruct s; reflexivity.
  - destruct (sendBtn_disabled s) eqn:D; [exact I|].
    pose proof I as (Hl & Hp & Hd). specialize (Hd D).
    destruct (sendBtn_listeners s) as [|[|n]] eqn:L; [exact I | | lia].
    cbn [Nat.iter nat_rect]. unfold send_begin.
    destruct (String.eqb (trim (chatInput_value s)) ""); [exact I|].
    destruct s; cbn in *; subst. repeat split; cbn; first [lia | discriminate].
  - refine (one_at_a_time_guard _ _ _ I). apply send_guard_iter, send_guard_start_begin.
  - destruct (profile_pending s) as [|n] eqn:P; [exact I|].
    destruct I as (Hl & Hp & Hd). destruct o as [p|].
    + unfold initialize_resume.
      destruct (_ && _); destruct s; cbn in *; subst; repeat split; cbn; auto; lia.
    + destruct s; cbn in *; subst; repeat split; cbn; auto; lia.
  - destruct (onboarding_pending s !! k); [|exact I]. destruct o as [res|].
    + refine (one_at_a_time_guard _ _ _ I). rewrite send_guard_start_resume.
      destruct s; reflexivity.
    + refine (one_at_a_time_guard _ _ _ I). destruct s; reflexivity.
  - destruct (chat_pending s !! k) as [text|] eqn:K; [|exact I].
    destruct I as (Hl & Hp & Hd).
    assert (delete k (chat_pending s) = []) as E.
    { destruct (chat_pending s) as [|t [|t' r]]; [discriminate| |cbn in Hp; lia].
      destruct k as [|k]; [reflexivity | discriminate]. }
    unfold send_resume.
    destruct o as [res|]; [destruct (truthy (get res "ok"))|];
      destruct s; cbn in *; subst; rewrite E; repeat split; cbn; auto; lia.
Qed.

Lemma click_path_never_overlaps (s0 : state) (evs : list event) :
  sendBtn_listeners s0 = 0%nat -> profile_pending s0 = 0%nat ->
  chat_pending s0 = [] ->
  forallb (fun e => negb (is_keydown e)) evs = true ->
  (length (chat_pending (run evs (load s0))) <= 1)%nat.
Proof.
  intros Hl Hp Hc Hev.
  assert (one_at_a_time (load s0)) as I.
  { unfold one_at_a_time, load.
    pose proof (send_guard_initialize_begin s0) as G. unfold send_guard in G.
    injection G as -> -> -> ->. rewrite Hl, Hp, Hc. repeat split; cbn; auto. }
  revert I. generalize (load s0). induction evs as [|e evs IH]; intros s I.
  - apply I.
  - cbn [forallb] in Hev. apply andb_prop in Hev as [He Hev].
    cbn [run fold_left]. apply (IH Hev). apply one_at_a_time_step; [|exact I].
    destruct (is_keydown e); [discriminate | reflexivity].
Qed.

(** C4: the Enter key reaches [send] while a chat request is in flight.
    After the page has loaded and the profile fetch has settled, the user
    sends ["a"] with Enter; the send button is then disabled, a click on it
    issues nothing, yet a second Enter with ["b"] in the input issues a
    second request while the first is still pending. *)
Theorem enter_sends_while_request_in_flight :
  let ready := run [ProfileSettles (Resolved {[ "ok" := JBool false ]})]
                   (load (blank 100)) in
  let first := run [ChatInputEdit "a"; ChatInputKeydown "Enter"] ready in
  let clicked := run [ChatInputEdit "b"; SendClick] first in
  let second := run [ChatInputEdit "b"; ChatInputKeydown "Enter"] first in
  chat_pending first = ["a"]
  /\ sendBtn_disabled first = true
  /\ chat_pending clicked = ["a"]
  /\ chat_pending second = ["a"; "b"].
Proof. vm_compute. repeat split. Qed.

End Flows.

(** ** Chip groups: reading the selection *)

Section ChipReading.

Lemma getActiveValue_group (id : string) (s : state) :
  getActiveValue id s
  = match List.find is_active (group_chips id s) with
    | Some active => of_prop (chip_value active)
    | None => JNull
    end.
Proof.
  unfold getActiveValue, group_chips. destruct (elements s !! id); reflexivity.
Qed.

Lemma find_active_none (cs : list chip) :
  List.find is_active cs = None <-> count_active cs = 0%nat.
Proof.
  unfold count_active. induction cs as [|c r IH]; [split; reflexivity|].
  cbn [List.find List.filter]. destruct (is_active c); [split; discriminate | exact IH].
Qed.

Lemma find_active_alter (k : nat) (cs : list chip) :
  count_active cs = 0%nat ->
  List.find is_active (alter chip_activate k cs) = chip_activate <$> cs !! k.
Proof.
  unfold count_active. revert k. induction cs as [|c r IH]; intros k H; [reflexivity|].
  cbn [List.filter] in H. destruct (is_active c) eqn:A; [discriminate|].
  destruct k as [|k]; cbn [alter list_alter List.find].
  - rewrite is_active_activate. reflexivity.
  - rewrite A. apply IH. exact H.
Qed.

Lemma find_active_select (i : nat) (cs : list chip) :
  List.find is_active (select_chip i cs)
  = chip_activate <$> (chip_deactivate <$> cs !! i).
Proof.
  unfold select_chip. rewrite find_active_alter by apply count_active_deactivated.
  rewrite list_lookup_fmap. reflexivity.
Qed.

Lemma values_select (i : nat) (cs : list chip) :
  chip_value <$> select_chip i cs = chip_value <$> cs.
Proof.
  unfold select_chip. apply list_eq. intros j.
  rewrite !list_lookup_fmap. destruct (decide (j = i)) as [->|Hne].
  - rewrite list_lookup_alter_eq, list_lookup_fmap. destruct (cs !! i); reflexivity.
  - rewrite list_lookup_alter_ne, list_lookup_fmap by congruence.
    destruct (cs !! j); reflexivity.
Qed.

Lemma values_iter_select (n i : nat) (cs : list chip) :
  chip_value <$> Nat.iter n (select_chip i) cs = chip_value <$> cs.
Proof.
  induction n as [|n IH]; [reflexivity|]. cbn [Nat.iter nat_rect].
  rewrite values_select. exact IH.
Qed.

(** X1: [getActiveValue] answers [null] exactly when the group has no
    active chip, which includes a container that does not exist. *)
Theorem getActiveValue_null_iff (containerId : string) (s : state) :
  getActiveValue containerId s = JNull
  <-> count_active (group_chips containerId s) = 0%nat.
Proof.
  rewrite getActiveValue_group, <- find_active_none.
  destruct (List.find is_active (group_chips containerId s)) as [c|].
  - split; [|discriminate]. destruct (chip_value c); discriminate.
  - split; reflexivity.
Qed.

Lemma read_after_click (id : string) (i : nat) (c : chip) (s : state) :
  group_chips id s !! i = Some c -> (1 <= chip_listeners c)%nat ->
  getActiveValue id (step (ChipClick id i) s) = of_prop (chip_value c).
Proof.
  intros Hc Hl. rewrite getActiveValue_group. cbn [step].
  unfold group_chips in Hc.
  destruct (elements s !! id) as [box|] eqn:E; [|discriminate].
  rewrite Hc. destruct (chip_listeners c) as [|n]; [lia|].
  rewrite group_chips_iter_chip_click, Nat.iter_succ, find_active_select.
  pose proof (values_iter_select n i (group_chips id s)) as V.
  apply (f_equal (fun l => l !! i)) in V. rewrite !list_lookup_fmap in V.
  unfold group_chips in V at 2. rewrite E, Hc in V.
  destruct (Nat.iter n (select_chip i) (group_chips id s) !! i) as [c'|];
    [|discriminate].
  injection V as V. cbn. rewrite V. reflexivity.
Qed.

(** X2: after a click on a chip that has a select listener,
    [getActiveValue] of its group is the value attribute of that chip
    ([undefined] when the chip has none), whatever was selected before. *)
Theorem getActiveValue_after_click (containerId : string) (i : nat) (c : chip)
    (s : state) :
  group_chips containerId s !! i = Some c ->
  (1 <= chip_listeners c)%nat ->
  getActiveValue containerId (step (ChipClick containerId i) s)
  = of_prop (chip_value c).
Proof. apply read_after_click. Qed.

(** X2, witness: a click on the second chip of a configured group. *)
Lemma getActiveValue_after_click_witness :
  let box := mkElement None None None None
               [mkChip (Some "male") {["chip"; "active"]} 1;
                mkChip (Some "female") {["chip"]} 1] in
  let s := page_of {["gender" := box]} [] in
  getActiveValue "gender" (step (ChipClick "gender" 1) s) = JStr "female".
Proof.
  intros box s.
  apply (getActiveValue_after_click "gender" 1
           (mkChip (Some "female") {["chip"]} 1) s); [reflexivity | cbn; lia].
Defined.

Lemma read_configured (d : jsval) (k : nat) (cs : list chip) :
  truthy d = true -> count_active cs = 0%nat ->
  first_with_value (ToString d) cs k ->
  match List.find is_active (configure_chips d cs) with
  | Some active => of_prop (chip_value active)
  | None => JNull
  end = JStr (ToString d).
Proof.
  intros T H0 Hk. unfold configure_chips.
  rewrite T, find_index_add_listener, (find_index_first _ _ _ Hk).
  rewrite find_active_alter by (rewrite count_active_add_listener; exact H0).
  rewrite list_lookup_fmap. destruct Hk as [(c & -> & Hv) _]. cbn.
  rewrite Hv. reflexivity.
Qed.



Lemma set_elements_twice (m m' : gmap string element) (s : state) :
  set_elements m' (set_elements m s) = set_elements m' s.
Proof. destruct s; reflexivity. Qed.

(** X4: configurations of two different groups commute: the order in
    which [initialize] configures its groups does not matter. *)
Theorem configurations_commute (a b : string) (da db : jsval) (s : state) :
  a <> b ->
  setChipGroupSingle a da (setChipGroupSingle b db s)
  = setChipGroupSingle b db (setChipGroupSingle a da s).
Proof.
  intros Hne. unfold setChipGroupSingle.
  destruct (elements s !! a) as [boxa|] eqn:Ea; destruct (elements s !! b) as [boxb|] eqn:Eb;
    rewrite ?elements_set_elements, ?lookup_insert_ne, ?Ea, ?Eb by congruence;
    rewrite ?set_elements_twice; try reflexivity.
  f_equal. apply insert_insert_ne. exact Hne.
Qed.

(** X4, witness: the gender and experience groups. *)
Lemma configurations_commute_witness :
  let box v := mkElement None None None None [mkChip (Some v) {["chip"]} 0] in
  let s := page_of {["gender" := box "male"; "experience" := box "beginner"]} [] in
  setChipGroupSingle "gender" (JStr "male")
    (setChipGroupSingle "experience" (JStr "beginner") s)
  = setChipGroupSingle "experience" (JStr "beginner")
      (setChipGroupSingle "gender" (JStr "male") s).
Proof.
  intros box s. apply configurations_commute. discriminate.
Defined.

Lemma activate_deactivate_again (c : chip) :
  chip_activate (chip_deactivate (chip_activate (chip_deactivate c)))
  = chip_activate (chip_deactivate c).
Proof.
  unfold chip_activate, chip_deactivate, classList_add, classList_remove.
  cbn [chip_value chip_classList chip_listeners]. f_equal.
  apply set_eq. intros x.
  rewrite !elem_of_union, !elem_of_difference, !elem_of_union, !elem_of_difference.
  tauto.
Qed.

Lemma deactivate_again (c : chip) :
  chip_deactivate (chip_deactivate c) = chip_deactivate c.
Proof.
  unfold chip_deactivate, classList_remove.
  cbn [chip_value chip_classList chip_listeners]. f_equal.
  apply set_eq. intros x. rewrite !elem_of_difference. tauto.
Qed.

Lemma select_chip_again (i : nat) (cs : list chip) :
  select_chip i (select_chip i cs) = select_chip i cs.
Proof.
  unfold select_chip. apply list_eq. intros j.
  destruct (decide (j = i)) as [->|Hne].
  - rewrite !list_lookup_alter_eq, !list_lookup_fmap, list_lookup_alter_eq,
      list_lookup_fmap.
    destruct (cs !! i); [|reflexivity]. cbn. rewrite activate_deactivate_again.
    reflexivity.
  - rewrite !list_lookup_alter_ne, !list_lookup_fmap, list_lookup_alter_ne,
      list_lookup_fmap by congruence.
    destruct (cs !! j); [|reflexivity]. cbn. rewrite deactivate_again. reflexivity.
Qed.

Lemma chip_click_again (id : string) (i : nat) (s : state) :
  chip_click id i (chip_click id i s) = chip_click id i s.
Proof.
  unfold chip_click. destruct (elements s !! id) as [box|] eqn:E.
  - rewrite elements_set_elements, lookup_insert_eq, set_elements_twice,
      insert_insert_eq.
    cbn [set_chips el_chips el_min el_max el_step el_value].
    rewrite select_chip_again. reflexivity.
  - rewrite E. reflexivity.
Qed.

Lemma iter_idempotent {A : Type} (f : A -> A) (n : nat) (x : A) :
  (forall y, f (f y) = f y) -> Nat.iter (S n) f x = f x.
Proof.
  intros Hf. induction n as [|n IH]; [reflexivity|].
  rewrite Nat.iter_succ, IH. apply Hf.
Qed.

(** X5: a second click on the chip just clicked changes nothing, however
    many select listeners the chip carries. *)
Theorem chip_click_twice (containerId : string) (i : nat) (s : state) :
  step (ChipClick containerId i) (step (ChipClick containerId i) s)
  = step (ChipClick containerId i) s.
Proof.
  cbn [step]. destruct (elements s !! containerId) as [box|] eqn:E; [|rewrite E; reflexivity].
  destruct (el_chips box !! i) as [c|] eqn:C; [|rewrite E, C; reflexivity].
  destruct (chip_listeners c) as [|n] eqn:L.
  - cbn [Nat.iter nat_rect]. rewrite E, C, L. reflexivity.
  - rewrite (iter_idempotent _ n s (chip_click_again containerId i)).
    unfold chip_click at 1 2. rewrite E, elements_set_elements, lookup_insert_eq.
    cbn [set_chips el_chips]. unfold select_chip at 1.
    rewrite list_lookup_alter_eq, list_lookup_fmap, C.
    cbn [fmap option_fmap option_map chip_activate chip_deactivate chip_listeners].
    rewrite L, (iter_idempotent _ n _ (chip_click_again containerId i)).
    fold (select_chip i (el_chips box)).
    replace (set_elements
               (<[containerId := set_chips (select_chip i (el_chips box)) box]>
                  (elements s)) s)
      with (chip_click containerId i s) by (unfold chip_click; rewrite E; reflexivity).
    apply chip_click_again.
Qed.

Lemma group_chips_configure_ne (a b : string) (d : jsval) (s : state) :
  a <> b -> group_chips b (setChipGroupSingle a d s) = group_chips b s.
Proof.
  intros Hne. unfold setChipGroupSingle, group_chips.
  destruct (elements s !! a); [|reflexivity].
  rewrite elements_set_elements, lookup_insert_ne by exact Hne. reflexivity.
Qed.

Lemma group_chips_setupSteppers (id : string) (s : state) :
  group_chips id (setupSteppers s) = group_chips id s.
Proof. destruct s; reflexivity. Qed.

Lemma group_chips_set_profile_pending (id : string) (n : nat) (s : state) :
  group_chips id (set_profile_pending n s) = group_chips id s.
Proof. destruct s; reflexivity. Qed.

Ltac through_configurations :=
  unfold load, initialize_begin;
  rewrite group_chips_set_profile_pending;
  repeat first [ rewrite group_chips_configure_ne by discriminate
               | rewrite group_chips_configure ];
  rewrite group_chips_setupSteppers.

(** X6: once the page has loaded, each of the six groups that had no
    active chip and holds a chip with its prescribed default value reads
    back that default. *)
Theorem load_selects_defaults (containerId default : string) (k : nat) (s : state) :
  In (containerId, default)
     [("gender", "male"); ("main_goal", "hypertrophy"); ("experience", "beginner");
      ("days_per_week", "4"); ("minutes_per_workout", "60"); ("injuries_yes_no", "no")] ->
  count_active (group_chips containerId s) = 0%nat ->
  first_with_value default (group_chips containerId s) k ->
  getActiveValue containerId (load s) = JStr default.
Proof.
  intros Hin H0 Hk. rewrite getActiveValue_group.
  cbn [In] in Hin.
  repeat (destruct Hin as [[= <- <-]|Hin];
          [through_configurations; apply (read_configured (JStr _) k);
             [reflexivity | exact H0 | exact Hk]|]).
  destruct Hin.
Qed.

(** X6, witness: the minutes-per-workout group. *)
Lemma load_selects_defaults_witness :
  let box := mkElement None None None None
               [mkChip (Some "45") {["chip"]} 0; mkChip (Some "60") {["chip"]} 0] in
  let s := page_of {["minutes_per_workout" := box]} [] in
  getActiveValue "minutes_per_workout" (load s) = JStr "60".
Proof.
  intros box s.
  apply (load_selects_defaults "minutes_per_workout" "60" 1 s).
  - cbn. tauto.
  - reflexivity.
  - split; [eexists; split; reflexivity|].
    intros j c Hj Hl. assert (j = 0%nat) as -> by lia.
    injection Hl as <-. discriminate.
Defined.

End ChipReading.

(** ** Steppers: what a click leaves alone, and repeated clicks *)

Section StepperClicks.

Lemma set_elements_back (m : gmap string element) (s : state) :
  set_elements (elements s) (set_elements m s) = s.
Proof. destruct s; reflexivity. Qed.

(** X7: a stepper click that does not throw writes the [value] of its
    target input and nothing else: every other element, the [min], [max],
    [step] and chips of the target, and all the rest of the page are as
    before. *)
Theorem stepper_click_writes_value_only (btn : button) (s s' : state) :
  stepper_click btn s = Ok s' ->
  set_elements (elements s) s' = s
  /\ (forall id, id <> step_target btn -> elements s' !! id = elements s !! id)
  /\ exists input input',
       elements s !! step_target btn = Some input
       /\ elements s' !! step_target btn = Some input'
       /\ el_min input' = el_min input /\ el_max input' = el_max input
       /\ el_step input' = el_step input /\ el_chips input' = el_chips input.
Proof.
  unfold stepper_click. destruct (elements s !! step_target btn) as [input|] eqn:E;
    [|discriminate].
  intros [= <-]. split; [apply set_elements_back|]. split.
  - intros id Hne. rewrite elements_set_elements. apply lookup_insert_ne. congruence.
  - eexists input, _. split; [reflexivity|]. split.
    + rewrite elements_set_elements. apply lookup_insert_eq.
    + repeat split.
Qed.

(** X7, witness: a click on the weight stepper of a page that also has a
    height input. *)
Lemma stepper_click_writes_value_only_witness :
  let up := mkButton (Some "weight") (Some "1") 1 in
  let s := page_of {["weight" := mkElement (Some "30") (Some "300") None (Some "70") [];
                     "height" := mkElement None None None (Some "180") []]} [up] in
  displayed "height" (or_unchanged s (stepper_click up s)) = Some "180".
Proof.
  intros up s.
  destruct (stepper_click up s) as [s'|] eqn:E; [|discriminate].
  destruct (stepper_click_writes_value_only up s s' E) as (_ & Hother & _).
  cbn [or_unchanged]. unfold displayed. rewrite (Hother "height"); [reflexivity|].
  discriminate.
Defined.









Lemma stepper_buttons_configure (id : string) (d : jsval) (s : state) :
  stepper_buttons (setChipGroupSingle id d s) = stepper_buttons s.
Proof.
  unfold setChipGroupSingle. destruct (elements s !! id); [|reflexivity].
  destruct s; reflexivity.
Qed.

Lemma stepper_buttons_load (s : state) :
  stepper_buttons (load s) = button_add_listener <$> stepper_buttons s.
Proof.
  unfold load, initialize_begin.
  set (s6 := setChipGroupSingle "injuries_yes_no" _ _).
  assert (stepper_buttons s6 = button_add_listener <$> stepper_buttons s) as E.
  { subst s6. rewrite !stepper_buttons_configure. destruct s; reflexivity. }
  rewrite <- E. destruct s6; reflexivity.
Qed.

(** X11: a stepper button without a listener ignores clicks; once the
    page has loaded, a click on such a button runs the stepper listener
    exactly once. *)
Theorem load_wires_stepper_once (i : nat) (btn : button) (s : state) :
  stepper_buttons s !! i = Some btn ->
  btn_listeners btn = 0%nat ->
  step (StepperClick i) s = s
  /\ step (StepperClick i) (load s)
     = or_unchanged (load s) (stepper_click btn (load s)).
Proof.
  intros Hb Hl. cbn [step]. split.
  - rewrite Hb, Hl. reflexivity.
  - rewrite stepper_buttons_load, list_lookup_fmap, Hb.
    cbn [fmap option_fmap option_map button_add_listener btn_listeners].
    rewrite Hl. reflexivity.
Qed.

(** X11, witness: the weight stepper before and after load. *)
Lemma load_wires_stepper_once_witness :
  let up := mkButton (Some "weight") (Some "1") 0 in
  let s := page_of {["weight" := mkElement None None None (Some "70") []]} [up] in
  displayed "weight" (step (StepperClick 0) s) = Some "70"
  /\ displayed "weight" (step (StepperClick 0) (load s)) = Some "71".
Proof.
  intros up s.
  destruct (load_wires_stepper_once 0 up s eq_refl eq_refl) as [-> ->].
  split; reflexivity.
Defined.

End StepperClicks.

(** ** The two views: what a call leaves alone *)

Section ViewCalls.

Lemma add_after_remove (c : string) (cl : classList) :
  classList_add c (classList_remove c cl) = classList_add c cl.
Proof.
  unfold classList_add, classList_remove. apply set_eq. intros x.
  rewrite !elem_of_union, elem_of_difference, elem_of_singleton.
  destruct (decide (x = c)); tauto.
Qed.

Lemma remove_after_add (c : string) (cl : classList) :
  classList_remove c (classList_add c cl) = classList_remove c cl.
Proof.
  unfold classList_add, classList_remove. apply set_eq. intros x.
  rewrite !elem_of_difference, elem_of_union. tauto.
Qed.

Lemma add_twice (c : string) (cl : classList) :
  classList_add c (classList_add c cl) = classList_add c cl.
Proof.
  unfold classList_add. apply set_eq. intros x. rewrite !elem_of_union. tauto.
Qed.

Lemma remove_twice (c : string) (cl : classList) :
  classList_remove c (classList_remove c cl) = classList_remove c cl.
Proof.
  unfold classList_remove. apply set_eq. intros x. rewrite !elem_of_difference. tauto.
Qed.

Lemma other_class_add (c x : string) (cl : classList) :
  x <> c -> x ∈ classList_add c cl <-> x ∈ cl.
Proof.
  intros H. unfold classList_add. rewrite elem_of_union, elem_of_singleton. tauto.
Qed.

Lemma other_class_remove (c x : string) (cl : classList) :
  x <> c -> x ∈ classList_remove c cl <-> x ∈ cl.
Proof.
  intros H. unfold classList_remove. rewrite elem_of_difference, elem_of_singleton. tauto.
Qed.

(** X12: [showOnboarding] and [showChat] only ever add or remove the
    class [hidden]: every other class of the two sections and the rest of
    the page stay as they are, and a call made after another call leaves
    the very page it would have left alone. *)
Theorem view_calls_toggle_hidden_only (c c' : view_call) (s : state) :
  (forall cls, cls <> "hidden" ->
     (cls ∈ onboarding (call_view c s) <-> cls ∈ onboarding s)
     /\ (cls ∈ chat (call_view c s) <-> cls ∈ chat s))
  /\ set_chat (chat s) (set_onboarding (onboarding s) (call_view c s)) = s
  /\ call_view c (call_view c' s) = call_view c s.
Proof.
  split; [|split].
  - intros cls Hne. destruct c; cbn [call_view].
    + destruct (showOnboarding_views s) as [-> ->].
      split; [apply other_class_remove | apply other_class_add]; exact Hne.
    + destruct (showChat_views s) as [-> ->].
      split; [apply other_class_add | apply other_class_remove]; exact Hne.
  - destruct c, s; reflexivity.
  - destruct c, c', s; cbn [call_view showOnboarding showChat set_onboarding set_chat
                              onboarding chat];
      rewrite ?add_after_remove, ?remove_after_add, ?add_twice, ?remove_twice;
      reflexivity.
Qed.

(** X12, witness: the chat section keeps its class [panel] through a
    call of [showChat]. *)
Lemma view_calls_toggle_hidden_only_witness :
  let s := set_chat {["panel"; "hidden"]} (blank 100) in
  "panel" ∈ chat (showChat s).
Proof.
  intros s.
  destruct (view_calls_toggle_hidden_only ShowChat ShowChat s) as [H _].
  apply (H "panel" ltac:(discriminate)). vm_compute. reflexivity.
Defined.

End ViewCalls.

(** ** The event loop: what the flows keep *)

Section EventLoop.

(** Chip clicks, stepper clicks and configurations only write the
    elements found by id. *)
Lemma rest_chip_click (id : string) (i : nat) (s : state) :
  set_elements ∅ (chip_click id i s) = set_elements ∅ s.
Proof.
  unfold chip_click. destruct (elements s !! id); [|reflexivity]. destruct s; reflexivity.
Qed.

Lemma rest_stepper_click (btn : button) (s : state) :
  set_elements ∅ (or_unchanged s (stepper_click btn s)) = set_elements ∅ s.
Proof.
  unfold stepper_click. destruct (elements s !! step_target btn); [|reflexivity].
  destruct s; reflexivity.
Qed.

Lemma rest_configure (id : string) (d : jsval) (s : state) :
  set_elements ∅ (setChipGroupSingle id d s) = set_elements ∅ s.
Proof.
  unfold setChipGroupSingle. destruct (elements s !! id); [|reflexivity].
  destruct s; reflexivity.
Qed.

Lemma rest_iter (f : state -> state) (n : nat) (s : state) :
  (forall s, set_elements ∅ (f s) = set_elements ∅ s) ->
  set_elements ∅ (Nat.iter n f s) = set_elements ∅ s.
Proof.
  intros Hf. induction n as [|n IH]; [reflexivity|].
  rewrite Nat.iter_succ, Hf. exact IH.
Qed.

Lemma rest_fields (s s' : state) :
  set_elements ∅ s' = set_elements ∅ s ->
  messages s' = messages s /\ alerts s' = alerts s
  /\ chat_pending s' = chat_pending s /\ onboarding_pending s' = onboarding_pending s
  /\ onboarding s' = onboarding s /\ chat s' = chat s
  /\ startBtn_listeners s' = startBtn_listeners s
  /\ sendBtn_listeners s' = sendBtn_listeners s
  /\ chatInput_listeners s' = chatInput_listeners s
  /\ profile_pending s' = profile_pending s
  /\ sendBtn_disabled s' = sendBtn_disabled s.
Proof. destruct s, s'. cbn. intros [= -> -> -> -> -> -> -> -> -> -> -> -> -> ->]. repeat split. Qed.

Lemma rest_element_clicks (e : event) (s : state) :
  match e with ChipClick _ _ | StepperClick _ => True | _ => False end ->
  set_elements ∅ (step e s) = set_elements ∅ s.
Proof.
  destruct e as [id i|i| | | | | | | ]; try contradiction; intros _; cbn [step].
  - destruct (elements s !! id) as [box|]; [|reflexivity].
    destruct (el_chips box !! i) as [c|]; [|reflexivity].
    apply rest_iter. intros s0. apply rest_chip_click.
  - destruct (stepper_buttons s !! i) as [btn|]; [|reflexivity].
    apply rest_iter. intros s0. apply rest_stepper_click.
Qed.

(** [trim] leaves nothing to trim. *)
Lemma rtrim_again (s : string) : rtrim (rtrim s) = rtrim s.
Proof.
  induction s as [|c r IH]; [reflexivity|]. cbn [rtrim].
  destruct (rtrim r) as [|c' r'] eqn:E.
  - destruct (is_ws c) eqn:W; [reflexivity|]. cbn [rtrim]. rewrite W. reflexivity.
  - change (rtrim (String c (String c' r')))
      with (match rtrim (String c' r') with
            | EmptyString => if is_ws c then EmptyString else String c EmptyString
            | String c0 r0 => String c (String c0 r0)
            end).
    rewrite IH. reflexivity.
Qed.

Lemma skip_ws_head (s : string) :
  skip_ws s = "" \/ exists c r, skip_ws s = String c r /\ is_ws c = false.
Proof.
  induction s as [|c r IH]; [left; reflexivity|]. cbn [skip_ws].
  destruct (is_ws c) eqn:W; [exact IH|]. right. eauto.
Qed.

Lemma skip_ws_rtrim (c : ascii) (r : string) :
  is_ws c = false -> skip_ws (rtrim (String c r)) = rtrim (String c r).
Proof.
  intros W. cbn [rtrim]. destruct (rtrim r); rewrite ?W; cbn [skip_ws]; rewrite W; reflexivity.
Qed.

Lemma trim_again (s : string) : trim (trim s) = trim s.
Proof.
  unfold trim. destruct (skip_ws_head s) as [-> | (c & r & -> & W)]; [reflexivity|].
  rewrite (skip_ws_rtrim _ _ W). apply rtrim_again.
Qed.

Lemma send_begin_effect (s : state) :
  send_begin s = s
  \/ (trim (chatInput_value s) <> ""
      /\ chat_pending (send_begin s)
         = (chat_pending s ++ [trim (chatInput_value s)])%list
      /\ transcript (send_begin s)
         = (transcript s
            ++ [message_node "user" (JStr (trim (chatInput_value s)))])%list
      /\ alerts (send_begin s) = alerts s).
Proof.
  destruct (String.eqb (trim (chatInput_value s)) "") eqn:E.
  - left. unfold send_begin. rewrite E. reflexivity.
  - right. apply String.eqb_neq in E. split; [exact E|].
    rewrite (send_begin_sends _ E). destruct s; repeat split; reflexivity.
Qed.

Lemma send_resume_effect (o : outcome) (s : state) :
  exists text,
    transcript (send_resume o s) = (transcript s ++ [message_node "assistant" text])%list
    /\ chat_pending (send_resume o s) = chat_pending s
    /\ alerts (send_resume o s) = alerts s.
Proof.
  unfold send_resume. destruct o as [res|]; [destruct (truthy (get res "ok"))|];
    eexists; destruct s; repeat split; reflexivity.
Qed.

Lemma initialize_resume_effect (p : response) (s : state) :
  transcript s `prefix_of` transcript (initialize_resume p s)
  /\ chat_pending (initialize_resume p s) = chat_pending s
  /\ alerts (initialize_resume p s) = alerts s.
Proof.
  unfold initialize_resume. destruct (_ && _); destruct s; repeat split;
    try reflexivity; eexists; reflexivity.
Qed.

Lemma start_begin_effect (s : state) :
  transcript (or_unchanged s (start_begin s)) = transcript s
  /\ chat_pending (or_unchanged s (start_begin s)) = chat_pending s
  /\ alerts (or_unchanged s (start_begin s)) = alerts s.
Proof.
  unfold start_begin.
  destruct (value_of "weight" s), (value_of "height" s), (value_of "age" s);
    try (repeat split; reflexivity).
  destruct s; repeat split; reflexivity.
Qed.

Lemma start_resume_effect (res : response) (s : state) :
  transcript s `prefix_of` transcript (start_resume res s)
  /\ chat_pending (start_resume res s) = chat_pending s
  /\ (truthy (get res "ok") = true -> alerts (start_resume res s) = alerts s).
Proof.
  unfold start_resume. destruct (truthy (get res "ok")); cbn [negb];
    destruct s; repeat split; try reflexivity; try discriminate; eexists;
    first [reflexivity | symmetry; apply app_nil_r].
Qed.

Lemma transcript_iter (f : state -> state) (n : nat) (s : state) :
  (forall s, transcript s `prefix_of` transcript (f s)) ->
  transcript s `prefix_of` transcript (Nat.iter n f s).
Proof.
  intros Hf. induction n as [|n IH]; [reflexivity|].
  rewrite Nat.iter_succ. etransitivity; [exact IH | apply Hf].
Qed.

Lemma transcript_send_begin (s : state) :
  transcript s `prefix_of` transcript (send_begin s).
Proof.
  destruct (send_begin_effect s) as [-> | (_ & _ & -> & _)];
    [reflexivity | eexists; reflexivity].
Qed.

Lemma transcript_keydown (key : string) (s : state) :
  transcript s `prefix_of` transcript (chatInput_keydown key s).
Proof.
  unfold chatInput_keydown. destruct (String.eqb key "Enter");
    [apply transcript_send_begin | reflexivity].
Qed.

Lemma transcript_step (e : event) (s : state) :
  transcript s `prefix_of` transcript (step e s).
Proof.
  destruct e as [id i|i|text|key| | |o|k o|k o].
  - destruct (rest_fields _ _ (rest_element_clicks (ChipClick id i) s I)) as (E & _).
    unfold transcript. rewrite E. reflexivity.
  - destruct (rest_fields _ _ (rest_element_clicks (StepperClick i) s I)) as (E & _).
    unfold transcript. rewrite E. reflexivity.
  - cbn [step]. destruct s; reflexivity.
  - cbn [step]. apply transcript_iter. intros s0. apply transcript_keydown.
  - cbn [step]. destruct (sendBtn_disabled s); [reflexivity|].
    apply transcript_iter, transcript_send_begin.
  - cbn [step]. apply transcript_iter. intros s0.
    destruct (start_begin_effect s0) as (-> & _). reflexivity.
  - cbn [step]. destruct (profile_pending s) as [|n]; [reflexivity|].
    destruct o as [p|]; [|destruct s; reflexivity].
    etransitivity; [|apply initialize_resume_effect]. destruct s; reflexivity.
  - cbn [step]. destruct (onboarding_pending s !! k); [|reflexivity].
    destruct o as [res|]; [|destruct s; reflexivity].
    etransitivity; [|apply start_resume_effect]. destruct s; reflexivity.
  - cbn [step]. destruct (chat_pending s !! k); [|reflexivity].
    destruct (send_resume_effect o (set_chat_pending (delete k (chat_pending s)) s))
      as (text & -> & _).
    apply prefix_app_r. destruct s; reflexivity.
Qed.

(** X13: the transcript is append-only: whatever events occur, the
    messages already rendered stay, unchanged and in order, at the front of
    the transcript. *)
Theorem transcript_is_append_only (evs : list event) (s : state) :
  transcript s `prefix_of` transcript (run evs s).
Proof.
  revert s. induction evs as [|e evs IH]; intros s; [reflexivity|].
  cbn [run fold_left]. etransitivity; [apply transcript_step | apply IH].
Qed.

Lemma pending_send_begin (s : state) :
  Forall trimmed_nonempty (chat_pending s) ->
  Forall trimmed_nonempty (chat_pending (send_begin s)).
Proof.
  intros H. destruct (send_begin_effect s) as [-> | (Hne & -> & _)]; [exact H|].
  apply Forall_app. split; [exact H|]. constructor; [|constructor].
  split; [exact Hne | apply trim_again].
Qed.

Lemma pending_keydown (key : string) (s : state) :
  Forall trimmed_nonempty (chat_pending s) ->
  Forall trimmed_nonempty (chat_pending (chatInput_keydown key s)).
Proof.
  unfold chatInput_keydown. destruct (String.eqb key "Enter");
    [apply pending_send_begin | tauto].
Qed.

Lemma pending_iter (f : state -> state) (n : nat) (s : state) :
  (forall s, Forall trimmed_nonempty (chat_pending s) ->
             Forall trimmed_nonempty (chat_pending (f s))) ->
  Forall trimmed_nonempty (chat_pending s) ->
  Forall trimmed_nonempty (chat_pending (Nat.iter n f s)).
Proof.
  intros Hf H. induction n as [|n IH]; [exact H|].
  rewrite Nat.iter_succ. apply Hf, IH.
Qed.

Lemma pending_step (e : event) (s : state) :
  Forall trimmed_nonempty (chat_pending s) ->
  Forall trimmed_nonempty (chat_pending (step e s)).
Proof.
  intros H. destruct e as [id i|i|text|key| | |o|k o|k o].
  - destruct (rest_fields _ _ (rest_element_clicks (ChipClick id i) s I))
      as (_ & _ & -> & _). exact H.
  - destruct (rest_fields _ _ (rest_element_clicks (StepperClick i) s I))
      as (_ & _ & -> & _). exact H.
  - cbn [step]. destruct s; exact H.
  - cbn [step]. apply pending_iter; [|exact H]. intros s0. apply pending_keydown.
  - cbn [step]. destruct (sendBtn_disabled s); [exact H|].
    apply pending_iter; [apply pending_send_begin | exact H].
  - cbn [step]. apply pending_iter; [|exact H]. intros s0 H0.
    destruct (start_begin_effect s0) as (_ & -> & _). exact H0.
  - cbn [step]. destruct (profile_pending s) as [|n]; [exact H|].
    destruct o as [p|]; [|destruct s; exact H].
    destruct (initialize_resume_effect p (set_profile_pending n s)) as (_ & -> & _).
    destruct s; exact H.
  - cbn [step]. destruct (onboarding_pending s !! k); [|exact H].
    destruct o as [res|]; [|destruct s; exact H].
    destruct (start_resume_effect res
                (set_onboarding_pending (delete k (onboarding_pending s)) s))
      as (_ & -> & _).
    destruct s; exact H.
  - cbn [step]. destruct (chat_pending s !! k); [|exact H].
    destruct (send_resume_effect o (set_chat_pending (delete k (chat_pending s)) s))
      as (text & _ & -> & _).
    destruct s; cbn in *. apply Forall_delete. exact H.
Qed.

(** X14: every chat request the page issues carries a text that is not
    empty and has no white space at either end: if that holds of the
    requests pending, it holds of the requests pending after any events. *)
Theorem chat_requests_are_trimmed (evs : list event) (s : state) :
  Forall trimmed_nonempty (chat_pending s) ->
  Forall trimmed_nonempty (chat_pending (run evs s)).
Proof.
  revert s. induction evs as [|e evs IH]; intros s H; [exact H|].
  cbn [run fold_left]. apply IH, pending_step, H.
Qed.

(** X14, witness: a padded text sent with Enter once the page is ready. *)
Lemma chat_requests_are_trimmed_witness :
  let evs := [ProfileSettles (Resolved {[ "ok" := JBool false ]});
              ChatInputEdit "  hello there  "; ChatInputKeydown "Enter"] in
  Forall trimmed_nonempty (chat_pending (run evs (load (blank 100))))
  /\ chat_pending (run evs (load (blank 100))) = ["hello there"].
Proof.
  intros evs. split; [|reflexivity].
  apply (chat_requests_are_trimmed evs (load (blank 100))). constructor.
Defined.

Lemma alerts_iter (f : state -> state) (n : nat) (s : state) :
  (forall s, alerts (f s) = alerts s) -> alerts (Nat.iter n f s) = alerts s.
Proof.
  intros Hf. induction n as [|n IH]; [reflexivity|]. rewrite Nat.iter_succ, Hf. exact IH.
Qed.

Lemma alerts_send_begin (s : state) : alerts (send_begin s) = alerts s.
Proof. destruct (send_begin_effect s) as [-> | (_ & _ & _ & E)]; [reflexivity | exact E]. Qed.

Lemma alerts_keydown (key : string) (s : state) :
  alerts (chatInput_keydown key s) = alerts s.
Proof.
  unfold chatInput_keydown. destruct (String.eqb key "Enter");
    [apply alerts_send_begin | reflexivity].
Qed.

(** X15: the only thing that ever raises an alert is an onboarding
    response whose [ok] is falsy, and it raises exactly one; a failed chat
    request, a rejected fetch or a listener that throws never alerts. *)
Theorem alerts_only_from_refused_onboarding (e : event) (s : state) :
  alerts (step e s) <> alerts s ->
  exists k res text,
    e = OnboardingSettles k (Resolved res)
    /\ truthy (get res "ok") = false
    /\ alerts (step e s) = (alerts s ++ [text])%list.
Proof.
  intros Hne.
  destruct e as [id i|i|text|key| | |o|k o|k o].
  - exfalso. apply Hne.
    apply (rest_fields _ _ (rest_element_clicks (ChipClick id i) s I)).
  - exfalso. apply Hne.
    apply (rest_fields _ _ (rest_element_clicks (StepperClick i) s I)).
  - exfalso. apply Hne. destruct s; reflexivity.
  - exfalso. apply Hne. cbn [step]. apply alerts_iter. intros s0. apply alerts_keydown.
  - exfalso. apply Hne. cbn [step]. destruct (sendBtn_disabled s); [reflexivity|].
    apply alerts_iter, alerts_send_begin.
  - exfalso. apply Hne. cbn [step]. apply alerts_iter. intros s0.
    apply start_begin_effect.
  - exfalso. apply Hne. cbn [step]. destruct (profile_pending s) as [|n]; [reflexivity|].
    destruct o as [p|]; [|destruct s; reflexivity].
    destruct (initialize_resume_effect p (set_profile_pending n s)) as (_ & _ & ->).
    destruct s; reflexivity.
  - cbn [step] in *. destruct (onboarding_pending s !! k); [|contradiction].
    destruct o as [res|]; [|exfalso; apply Hne; destruct s; reflexivity].
    destruct (truthy (get res "ok")) eqn:T.
    + exfalso. apply Hne.
      destruct (start_resume_effect res
                  (set_onboarding_pending (delete k (onboarding_pending s)) s))
        as (_ & _ & E).
      rewrite (E T). destruct s; reflexivity.
    + exists k, res. eexists. split; [reflexivity|]. split; [exact T|].
      rewrite (start_resume_failed _ _ T). destruct s; reflexivity.
  - exfalso. apply Hne. cbn [step]. destruct (chat_pending s !! k); [|reflexivity].
    destruct (send_resume_effect o (set_chat_pending (delete k (chat_pending s)) s))
      as (text & _ & _ & ->).
    destruct s; reflexivity.
Qed.

(** X15, witness: a refused onboarding request. *)
Lemma alerts_only_from_refused_onboarding_witness :
  let s := set_onboarding_pending
             [mkPayload NaN NaN NaN JNull JNull JNull NaN NaN false ""] (blank 100) in
  let e := OnboardingSettles 0 (Resolved {[ "ok" := JBool false ]}) in
  exists k res text,
    e = OnboardingSettles k (Resolved res)
    /\ truthy (get res "ok") = false
    /\ alerts (step e s) = (alerts s ++ [text])%list.
Proof.
  intros s e. apply (alerts_only_from_refused_onboarding e s). discriminate.
Defined.

Lemma load_fields (s : state) :
  messages (load s) = messages s /\ alerts (load s) = alerts s
  /\ chat_pending (load s) = chat_pending s
  /\ onboarding_pending (load s) = onboarding_pending s
  /\ onboarding (load s) = onboarding s /\ chat (load s) = chat s
  /\ startBtn_listeners (load s) = startBtn_listeners s
  /\ sendBtn_listeners (load s) = sendBtn_listeners s
  /\ chatInput_listeners (load s) = chatInput_listeners s.
Proof.
  unfold load, initialize_begin.
  set (s6 := setChipGroupSingle "injuries_yes_no" _ _).
  assert (set_elements ∅ s6 = set_elements ∅ (setupSteppers s)) as E.
  { subst s6. rewrite !rest_configure. reflexivity. }
  apply rest_fields in E. destruct E as (E1 & E2 & E3 & E4 & E5 & E6 & E7 & E8 & E9 & _).
  destruct s6, s; cbn in *. subst. repeat split.
Qed.

Lemma quiet_step (s0 s : state) (e : event) :
  (forall p, e <> ProfileSettles (Resolved p)) ->
  quiet_like s0 s -> quiet_like s0 (step e s).
Proof.
  intros He Q. pose proof Q as (L1 & L2 & L3 & P1 & P2 & M & A & O & C).
  destruct e as [id i|i|text|key| | |o|k o|k o].
  - destruct (rest_fields _ _ (rest_element_clicks (ChipClick id i) s I))
      as (E1 & E2 & E3 & E4 & E5 & E6 & E7 & E8 & E9 & _).
    unfold quiet_like. rewrite E1, E2, E3, E4, E5, E6, E7, E8, E9. exact Q.
  - destruct (rest_fields _ _ (rest_element_clicks (StepperClick i) s I))
      as (E1 & E2 & E3 & E4 & E5 & E6 & E7 & E8 & E9 & _).
    unfold quiet_like. rewrite E1, E2, E3, E4, E5, E6, E7, E8, E9. exact Q.
  - cbn [step]. destruct s; exact Q.
  - cbn [step]. rewrite L3. exact Q.
  - cbn [step]. destruct (sendBtn_disabled s); [exact Q|]. rewrite L2. exact Q.
  - cbn [step]. rewrite L1. exact Q.
  - cbn [step]. destruct (profile_pending s) as [|n]; [exact Q|].
    destruct o as [p|]; [destruct (He p); reflexivity|]. destruct s; exact Q.
  - cbn [step]. rewrite P2. exact Q.
  - cbn [step]. rewrite P1. exact Q.
Qed.

(** X16: until the profile fetch resolves, and for good when it is
    rejected, the start button, the send button and the Enter key are
    dead: whatever the user does, no onboarding or chat request is issued,
    and the transcript, the alerts and the two sections stay as the page
    had them before it loaded. *)
Theorem nothing_starts_before_profile (s0 : state) (evs : list event) :
  startBtn_listeners s0 = 0%nat -> sendBtn_listeners s0 = 0%nat ->
  chatInput_listeners s0 = 0%nat ->
  chat_pending s0 = [] -> onboarding_pending s0 = [] ->
  Forall (fun e => forall p, e <> ProfileSettles (Resolved p)) evs ->
  quiet_like s0 (run evs (load s0)).
Proof.
  intros L1 L2 L3 P1 P2 Hev.
  assert (quiet_like s0 (load s0)) as Q.
  { destruct (load_fields s0) as (E1 & E2 & E3 & E4 & E5 & E6 & E7 & E8 & E9).
    unfold quiet_like. rewrite E1, E2, E3, E4, E5, E6, E7, E8, E9. repeat split; assumption. }
  revert Q. generalize (load s0). induction Hev as [|e evs He _ IH]; intros s Q; [exact Q|].
  cbn [run fold_left]. apply IH, quiet_step; assumption.
Qed.

(** X16, witness: the profile fetch is rejected, then the user types,
    presses Enter and clicks both buttons. *)
Lemma nothing_starts_before_profile_witness :
  let evs := [ProfileSettles Rejected; ChatInputEdit "hello"; ChatInputKeydown "Enter";
              SendClick; StartClick] in
  quiet_like (blank 100) (run evs (load (blank 100))).
Proof.
  intros evs.
  apply (nothing_starts_before_profile (blank 100) evs); try reflexivity.
  repeat constructor; discriminate.
Defined.

End EventLoop.

(** ** The onboarding request *)

Section Payload.

Lemma start_begin_found (s : state) (w h a : element) :
  elements s !! "weight" = Some w -> elements s !! "height" = Some h ->
  elements s !! "age" = Some a ->
  start_begin s
  = Ok (set_onboarding_pending
          (onboarding_pending s
           ++ [mkPayload
                 (parseInt (of_prop (el_value w))) (parseInt (of_prop (el_value h)))
                 (parseInt (of_prop (el_value a)))
                 (getActiveValue "gender" s) (getActiveValue "main_goal" s)
                 (getActiveValue "experience" s)
                 (parseInt (getActiveValue "days_per_week" s))
                 (parseInt (getActiveValue "minutes_per_workout" s))
                 (strict_eq_string (getActiveValue "injuries_yes_no" s) "yes")
                 (trim (injuries_details_value s))]) s).
Proof. intros Hw Hh Ha. unfold start_begin, value_of. rewrite Hw, Hh, Ha. reflexivity. Qed.







Lemma read_none (id : string) (s : state) :
  count_active (group_chips id s) = 0%nat -> getActiveValue id s = JNull.
Proof.
  intros H. rewrite getActiveValue_group.
  rewrite (proj2 (find_active_none _) H). reflexivity.
Qed.

(** X19: submitted with no chip selected, the three text choices are
    [null], the two numeric choices are [NaN] and the injuries flag is
    false. *)
Theorem payload_without_selection (s : state) (w h a : element) :
  elements s !! "weight" = Some w -> elements s !! "height" = Some h ->
  elements s !! "age" = Some a ->
  Forall (fun id => count_active (group_chips id s) = 0%nat)
         ["gender"; "main_goal"; "experience"; "days_per_week";
          "minutes_per_workout"; "injuries_yes_no"] ->
  exists p, start_begin s
            = Ok (set_onboarding_pending (onboarding_pending s ++ [p]) s)
            /\ gender p = JNull /\ main_goal p = JNull /\ experience p = JNull
            /\ days_per_week p = NaN /\ minutes_per_workout p = NaN
            /\ injuries_yes_no p = false.
Proof.
  intros Hw Hh Ha Hall.
  repeat match goal with
         | H : Forall _ (_ :: _) |- _ => apply Forall_cons in H as [? H]
         end.
  eexists. split; [apply (start_begin_found s w h a); assumption|].
  cbn [gender main_goal experience days_per_week minutes_per_workout injuries_yes_no].
  rewrite !read_none by assumption. repeat split.
Qed.

(** X19, witness: a page with the three inputs and no chip group. *)
Lemma payload_without_selection_witness :
  let field v := mkElement None None None (Some v) [] in
  let s := page_of {["weight" := field "70"; "height" := field "180";
                     "age" := field "30"]} [] in
  exists p, start_begin s
            = Ok (set_onboarding_pending (onboarding_pending s ++ [p]) s)
            /\ gender p = JNull /\ main_goal p = JNull /\ experience p = JNull
            /\ days_per_week p = NaN /\ minutes_per_workout p = NaN
            /\ injuries_yes_no p = false.
Proof.
  intros field s.
  apply (payload_without_selection s (field "70") (field "180") (field "30"));
    try reflexivity.
  repeat constructor.
Defined.





End Payload.
